(** * Shapefile structure audit: the scan and the report of
      [shapefile_reporter.py], embedded and verified.

    A Python [str] is held as the [string] of its UTF-8 bytes: [len]
    counts the code points, not the bytes, and string comparison is
    [String.compare], the lexicographic order on bytes, which on UTF-8
    text is the order on code points that Python uses for [str].
    The two geospatial readers and the file system are not part of the
    script: what they return for a file is data carried by the walk. *)

From Stdlib Require Import List String Ascii Bool ZArith NArith Lia Arith.
From Stdlib Require Import Sorted Permutation OrdersEx RelationClasses.
Import ListNotations.

Local Open Scope string_scope.
Local Open Scope list_scope.

(** ** Python built-ins used by the script *)

Module Py.

(** [str.lower] on the characters A-Z; every other character is kept. *)
Definition lower_char (c : ascii) : ascii :=
  let n := nat_of_ascii c in
  if (65 <=? n)%nat && (n <=? 90)%nat then ascii_of_nat (n + 32) else c.

Fixpoint lower (s : string) : string :=
  match s with
  | EmptyString => EmptyString
  | String c t => String (lower_char c) (lower t)
  end.

Fixpoint rev_string (acc s : string) : string :=
  match s with
  | EmptyString => acc
  | String c t => rev_string (String c acc) t
  end.

(** [s.endswith(suf)]. *)
Definition endswith (s suf : string) : bool :=
  String.prefix (rev_string "" suf) (rev_string "" s).

(** [":" in s] and [s.split(":", 1)]: the text before the first colon
    and the text after it, when there is a colon. *)
Fixpoint split_colon (s : string) : option (string * string) :=
  match s with
  | EmptyString => None
  | String c t =>
      if Ascii.eqb c ":" then Some (EmptyString, t)
      else match split_colon t with
           | Some (a, b) => Some (String c a, b)
           | None => None
           end
  end.

Definition is_space (c : ascii) : bool :=
  let n := nat_of_ascii c in
  (n =? 32)%nat || ((9 <=? n)%nat && (n <=? 13)%nat)
  || ((28 <=? n)%nat && (n <=? 31)%nat).

Fixpoint lstrip (s : string) : string :=
  match s with
  | String c t => if is_space c then lstrip t else s
  | EmptyString => EmptyString
  end.

Definition strip (s : string) : string :=
  rev_string "" (lstrip (rev_string "" (lstrip s))).

Definition digit_val (c : ascii) : option Z :=
  let n := nat_of_ascii c in
  if (48 <=? n)%nat && (n <=? 57)%nat then Some (Z.of_nat (n - 48)) else None.

(** Decimal digits, single underscores allowed between two digits.
    [after_digit] tells whether the previous character was a digit. *)
Fixpoint digits (acc : Z) (after_digit : bool) (s : string) : option Z :=
  match s with
  | EmptyString => if after_digit then Some acc else None
  | String c t =>
      if Ascii.eqb c "_" then
        if after_digit then digits acc false t else None
      else match digit_val c with
           | Some d => digits (10 * acc + d) true t
           | None => None
           end
  end.

(** [int(s)] for a [str]: [None] stands for [ValueError]. *)
Definition int (s : string) : option Z :=
  match strip s with
  | String "-" t => option_map Z.opp (digits 0 false t)
  | String "+" t => digits 0 false t
  | t => digits 0 false t
  end.

(** Truth value of a [str]. *)
Definition truthy (s : string) : bool :=
  match s with EmptyString => false | _ => true end.

End Py.

(** ** Data model *)

(** One row of the table: the dict appended to [filas]. *)
Record Fila := mkFila {
  carpeta_base : string;      (* "Carpeta Base" *)
  nombre_shapefile : string;  (* "Nombre Shapefile" *)
  tipo_geometria : string;    (* "Tipo de Geometría" *)
  nombre_campo : string;      (* "Nombre Campo" *)
  tipo_dato : string;         (* "Tipo de Dato" *)
  longitud : Z                (* "Longitud" *)
}.

(** A value of [schema["properties"]]: a [str] such as ["str:80"], or some
    other object, of which the script only takes [str(ftype)]. *)
Inductive ftype :=
| FStr (s : string)
| FOther (repr : string).

Definition py_str (f : ftype) : string :=
  match f with FStr s => s | FOther r => r end.

(** [props]: a dict, in insertion order. *)
Definition props_t := list (string * ftype).

(** [src.schema]: both keys are read with [dict.get] and a default. *)
Record schema_t := mkSchema {
  properties : option props_t;
  geometry : option string
}.

(** A cell of a data column: null, or a value given by its [str()] text. *)
Inductive cell :=
| NA
| Val (text : string).

(** A column of the GeoDataFrame, with the answers of the two pandas
    dtype predicates the script asks. *)
Record serie_t := mkSerie {
  is_object_dtype : bool;
  is_string_dtype : bool;
  valores : list cell
}.

(** What the script looks at in [gpd.read_file(ruta_shp)]:
    [geom_mode] is [gdf.geom_type.mode()[0]], [None] when that raises. *)
Record gdf_t := mkGdf {
  gdf_empty : bool;
  geom_mode : option string;
  columns : list (string * serie_t)
}.

(** A file met by [os.walk], with what the two readers do on it:
    [fiona_open] is [inl msg] when [fiona.open] raises ([msg] is the text
    of the exception), [read_file] is [None] when [gpd.read_file] raises. *)
Record archivo_t := mkArchivo {
  nombre : string;
  fiona_open : string + schema_t;
  read_file : option gdf_t
}.

(** [os.walk(root_folder)]: the visited directories, in order, each with
    its files, in order. *)
Definition walk_t := list (string * list archivo_t).

(** ** The scan: the loop of [process_shapefiles] over [os.walk]

    The progress bar and the status text are presentation only and are
    left out; everything that reaches [filas] and [logs] is kept. *)

(** [tipo] and [longitud] right after the parse of the compound type
    string (lines 87-97): [str(ftype)] and 0 unless [ftype] is a [str] with
    a colon, then the text before the first colon and [int] of the text
    after it, 0 when [int] raises. *)
Definition parse_ftype (f : ftype) : string * Z :=
  let tipo := py_str f in
  let longitud := 0%Z in
  match f with
  | FStr s =>
      match Py.split_colon s with
      | Some (antes, despues) =>
          (antes, match Py.int despues with Some n => n | None => 0%Z end)
      | None => (tipo, longitud)
      end
  | FOther _ => (tipo, longitud)
  end.

(** [gdf[fname]] when [fname in gdf.columns]. *)
Fixpoint get_column (fname : string) (cols : list (string * serie_t))
  : option serie_t :=
  match cols with
  | [] => None
  | (c, s) :: t => if String.eqb c fname then Some s else get_column fname t
  end.

(** [serie.dropna().astype(str)]. *)
Fixpoint dropna_astype_str (v : list cell) : list string :=
  match v with
  | [] => []
  | NA :: t => dropna_astype_str t
  | Val s :: t => s :: dropna_astype_str t
  end.

(** A byte 10xxxxxx: inside the UTF-8 encoding of a code point, never at
    its start. *)
Definition es_continuacion (c : ascii) : bool :=
  let n := N_of_ascii c in
  ((128 <=? n) && (n <=? 191))%N.

(** Number of code points of a text given by its UTF-8 bytes: the bytes
    that start one. *)
Fixpoint code_points (s : string) : nat :=
  match s with
  | EmptyString => 0
  | String c t =>
      if es_continuacion c then code_points t else S (code_points t)
  end.

(** [len(s)] of a [str]. *)
Definition len (s : string) : Z := Z.of_nat (code_points s).

(** The UTF-8 bytes of a code point, and of a [str] given as the list of
    its code points. *)
Definition utf8_de (c : N) : string :=
  if (c <? 128)%N then String (ascii_of_N c) ""
  else if (c <? 2048)%N then
    String (ascii_of_N (192 + c / 64))
      (String (ascii_of_N (128 + c mod 64)) "")
  else if (c <? 65536)%N then
    String (ascii_of_N (224 + c / 4096))
      (String (ascii_of_N (128 + (c / 64) mod 64))
         (String (ascii_of_N (128 + c mod 64)) ""))
  else
    String (ascii_of_N (240 + c / 262144))
      (String (ascii_of_N (128 + (c / 4096) mod 64))
         (String (ascii_of_N (128 + (c / 64) mod 64))
            (String (ascii_of_N (128 + c mod 64)) ""))).

Fixpoint utf8 (cps : list N) : string :=
  match cps with
  | [] => ""
  | c :: t => (utf8_de c ++ utf8 t)%string
  end.

(** [int(serie_no_na.map(len).max())] of a series that is not empty. *)
Definition max_len (primero : string) (resto : list string) : Z :=
  fold_left Z.max (map len resto) (len primero).

(** Lines 99-110: the observed maximum replaces a length that is 0. *)
Definition longitud_real (longitud : Z) (gdf : option gdf_t) (fname : string)
  : Z :=
  match gdf with
  | None => longitud
  | Some g =>
      match get_column fname (columns g) with
      | None => longitud
      | Some serie =>
          if is_object_dtype serie || is_string_dtype serie then
            match dropna_astype_str (valores serie) with
            | [] => longitud
            | x :: rest =>
                let maxlen := max_len x rest in
                if (longitud =? 0)%Z then maxlen else longitud
            end
          else longitud
      end
  end.

(** The row appended for one item of [props] (lines 86-119). *)
Definition fila_campo (carpeta archivo tipo_geom : string)
    (gdf : option gdf_t) (campo : string * ftype) : Fila :=
  let '(fname, ft) := campo in
  let '(tipo, longitud) := parse_ftype ft in
  mkFila carpeta archivo tipo_geom fname tipo (longitud_real longitud gdf fname).

(** The row of a shapefile without fields (lines 77-84). *)
Definition fila_sin_atributos (carpeta archivo tipo_geom : string) : Fila :=
  mkFila carpeta archivo tipo_geom "(Sin atributos)" "" 0%Z.

(** Lines 50-72: the geometry type of the schema, "Unknown" by default,
    overwritten by the dominant one of a GeoDataFrame that could be read,
    is not empty and has a mode. *)
Definition tipo_geom_de (sch : schema_t) (gdf : option gdf_t) : string :=
  let fiona_geom :=
    match geometry sch with Some g => g | None => "Unknown" end in
  match gdf with
  | Some g =>
      if negb (gdf_empty g) then
        match geom_mode g with Some m => m | None => fiona_geom end
      else fiona_geom
  | None => fiona_geom
  end.

(** The warning of line 60; its first six characters are the UTF-8 bytes
    of the warning sign. *)
Definition aviso_fiona (archivo e : string) : string :=
  ("⚠️ Error fiona en " ++ archivo ++ ": " ++ e)%string.

(** [schema.get("properties", {})]. *)
Definition props_de (sch : schema_t) : props_t :=
  match properties sch with Some p => p | None => [] end.

(** Line 42: [archivo.lower().endswith(".shp")]. *)
Definition es_shp (archivo : string) : bool :=
  Py.endswith (Py.lower archivo) ".shp".

(** [os.path.join] and [os.path.dirname]: the path module of the
    platform ([posixpath] or [ntpath]). *)
Class OsPath := {
  os_path_join : string -> string -> string;
  os_path_dirname : string -> string
}.

Section Scan.

Context {os_path : OsPath}.

Definition carpeta_de (raiz archivo : string) : string :=
  os_path_dirname (os_path_join raiz archivo).

(** One turn of the inner loop (lines 36-119) on the state
    [(filas, logs)]. *)
Definition process_archivo (raiz : string) (a : archivo_t)
    (st : list Fila * list string) : list Fila * list string :=
  let '(filas, logs) := st in
  let archivo := nombre a in
  if negb (es_shp archivo) then (filas, logs)
  else
    let carpeta := carpeta_de raiz archivo in
    match fiona_open a with
    | inl e => (filas, logs ++ [aviso_fiona archivo e])
    | inr sch =>
        let props := props_de sch in
        let gdf := read_file a in
        let tipo_geom := tipo_geom_de sch gdf in
        match props with
        | [] => (filas ++ [fila_sin_atributos carpeta archivo tipo_geom], logs)
        | _ =>
            (fold_left
               (fun fs campo =>
                  fs ++ [fila_campo carpeta archivo tipo_geom gdf campo])
               props filas,
             logs)
        end
    end.

Definition process_dir (st : list Fila * list string)
    (d : string * list archivo_t) : list Fila * list string :=
  fold_left (fun st a => process_archivo (fst d) a st) (snd d) st.

(** [filas] and [logs] when the loop of line 35 ends. *)
Definition scan (w : walk_t) : list Fila * list string :=
  fold_left process_dir w ([], []).

(** What one file adds to [filas] and to [logs]. *)
Definition filas_de (raiz : string) (a : archivo_t) : list Fila :=
  fst (process_archivo raiz a ([], [])).

Definition avisos_de (raiz : string) (a : archivo_t) : list string :=
  snd (process_archivo raiz a ([], [])).

(** The pair folder, file name of a visited file. *)
Definition ruta_de (v : string * archivo_t) : string * string :=
  (carpeta_de (fst v) (nombre (snd v)), nombre (snd v)).

End Scan.

(** ** The report: sort, display copy, highlighted rows *)

(** The table [df] is the list of its rows; a column is the list of one
    field of the rows. *)

(** Order of [sort_values(by=["Carpeta Base", "Nombre Shapefile",
    "Nombre Campo"])]: the three strings compared in turn. *)
Definition cmp_clave (a b : Fila) : comparison :=
  match String.compare (carpeta_base a) (carpeta_base b) with
  | Eq =>
      match String.compare (nombre_shapefile a) (nombre_shapefile b) with
      | Eq => String.compare (nombre_campo a) (nombre_campo b)
      | c => c
      end
  | c => c
  end.

Definition clave_leb (a b : Fila) : bool :=
  match cmp_clave a b with Gt => false | _ => true end.

Definition clave (r : Fila) : string * string * string :=
  (carpeta_base r, nombre_shapefile r, nombre_campo r).

Definition clave_eqb (k : string * string * string) (r : Fila) : bool :=
  let '(c, n, f) := k in
  String.eqb c (carpeta_base r) && String.eqb n (nombre_shapefile r)
  && String.eqb f (nombre_campo r).

(** pandas sorts on several columns with a stable sort; it is taken here
    as the stable insertion sort. *)
Fixpoint insertar (x : Fila) (l : list Fila) : list Fila :=
  match l with
  | [] => [x]
  | y :: t => if clave_leb x y then x :: l else y :: insertar x t
  end.

Definition sort_values (df : list Fila) : list Fila :=
  fold_right insertar [] df.

(** [Series.duplicated()]: true where the value occurred earlier in the
    column. *)
Fixpoint duplicated_desde (vistos col : list string) : list bool :=
  match col with
  | [] => []
  | x :: t => existsb (String.eqb x) vistos :: duplicated_desde (x :: vistos) t
  end.

Definition duplicated (col : list string) : list bool :=
  duplicated_desde [] col.

(** [Series.mask(cond, other)]. *)
Fixpoint mask (col : list string) (cond : list bool) (other : string)
  : list string :=
  match col, cond with
  | x :: t, c :: ct => (if c then other else x) :: mask t ct other
  | _, _ => []
  end.

(** Assignment of a whole column. *)
Fixpoint set_carpeta_base (df : list Fila) (col : list string) : list Fila :=
  match df, col with
  | r :: t, c :: ct =>
      mkFila c (nombre_shapefile r) (tipo_geometria r) (nombre_campo r)
        (tipo_dato r) (longitud r) :: set_carpeta_base t ct
  | _, _ => []
  end.

Fixpoint set_nombre_shapefile (df : list Fila) (col : list string)
  : list Fila :=
  match df, col with
  | r :: t, c :: ct =>
      mkFila (carpeta_base r) c (tipo_geometria r) (nombre_campo r)
        (tipo_dato r) (longitud r) :: set_nombre_shapefile t ct
  | _, _ => []
  end.

(** Lines 134-136. *)
Definition make_df_export (df : list Fila) : list Fila :=
  let df_export := df in
  let df_export :=
    set_carpeta_base df_export
      (mask (map carpeta_base df_export)
            (duplicated (map carpeta_base df_export)) "") in
  let df_export :=
    set_nombre_shapefile df_export
      (mask (map nombre_shapefile df_export)
            (duplicated (map nombre_shapefile df_export)) "") in
  df_export.

(** [folder_cell_value != prev_folder], [prev_folder] being [None] or a
    string. *)
Definition distinto (v : string) (prev_folder : option string) : bool :=
  match prev_folder with
  | None => true
  | Some p => negb (String.eqb v p)
  end.

(** Lines 160-172, over the values of column 1 of the data rows, top to
    bottom: for each row, whether its cells get the bold font and the
    fill. *)
Fixpoint resaltar (prev_folder : option string) (col1 : list string)
  : list bool :=
  match col1 with
  | [] => []
  | folder_cell_value :: t =>
      if Py.truthy folder_cell_value && distinto folder_cell_value prev_folder
      then true :: resaltar (Some folder_cell_value) t
      else false :: resaltar prev_folder t
  end.

(** The sheet "Campos" held by [output]: the data rows, the width of the
    six columns, and the highlighted rows. *)
Record Excel := mkExcel {
  hoja : list Fila;
  anchos : list Z;
  resaltadas : list bool
}.

Definition make_excel (df : list Fila) : Excel :=
  let df_export := make_df_export df in
  mkExcel df_export (repeat 25%Z 6)
    (resaltar None (map carpeta_base df_export)).

Section Proceso.

Context {os_path : OsPath}.

(** [process_shapefiles(root_folder)], given what [os.walk] yields:
    [(output, df, logs)], [output] being [None] when there is no row. *)
Definition process_shapefiles (w : walk_t)
  : option Excel * list Fila * list string :=
  let '(filas, logs) := scan w in
  match filas with
  | [] => (None, [], logs)
  | _ =>
      let df := sort_values filas in
      (Some (make_excel df), df, logs)
  end.

Definition df_de (w : walk_t) : list Fila :=
  snd (fst (process_shapefiles w)).

Definition output_de (w : walk_t) : option Excel :=
  fst (fst (process_shapefiles w)).

Definition logs_de (w : walk_t) : list string :=
  snd (process_shapefiles w).

End Proceso.

(** The files of a walk in the order of the two nested loops, each with
    the directory it is in. *)
Definition visitas (w : walk_t) : list (string * archivo_t) :=
  flat_map (fun d => map (pair (fst d)) (snd d)) w.

(** The keys of a [props] dict are pairwise different. *)
Definition props_es_dict (a : archivo_t) : Prop :=
  match fiona_open a with
  | inr sch => NoDup (map fst (props_de sch))
  | inl _ => True
  end.

(** ** The button handler (lines 194-235) *)

Inductive excepcion :=
| NameError (name : string).

(** Calls to the interface, in order. *)
Inductive st_call :=
| St_error
| St_warning
| St_success (n : nat)
| St_metric (n : nat)
| St_download_button (data : Excel)
| St_dataframe (df : list Fila)
| St_write (log : string)
| St_code (log : string).

(** Names bound at module level when line 194 is reached: the imports,
    the function and the four widgets values. No built-in is called
    [temp_dir]. *)
Definition globals_194 : list string :=
  ["st"; "os"; "gpd"; "fiona"; "pd"; "Workbook"; "Font"; "PatternFill";
   "get_column_letter"; "BytesIO"; "zipfile"; "tempfile"; "shutil";
   "process_shapefiles"; "col1"; "col2"; "input_folder"; "process_btn"].

(** Reading a global name. *)
Definition load_name (globals : list string) (x : string)
  : excepcion + unit :=
  if existsb (String.eqb x) globals then inr tt else inl (NameError x).

(** Number of different values of a column ([nunique]). *)
Definition nunique (col : list string) : nat :=
  List.length (filter negb (duplicated col)).

Section Handler.

Context {os_path : OsPath}.

(** Lines 195-231: the interface calls and the names bound on the way.
    [existe] is [os.path.exists(input_folder)] and [w] what
    [os.walk(input_folder)] yields. *)
Definition rama_proceso (input_folder : string) (existe : bool)
    (w : walk_t) : list st_call * list string :=
  if negb (Py.truthy input_folder) || negb existe then
    ([St_error], globals_194)
  else
    let '(excel_data, df_result, logs) :=
      process_shapefiles w in
    let globals := globals_194 ++ ["excel_data"; "df_result"; "logs"] in
    match excel_data, df_result with
    | Some data, _ :: _ =>
        ([St_success (List.length df_result);
          St_metric (List.length df_result);
          St_metric (nunique (map nombre_shapefile df_result));
          St_metric (nunique (map carpeta_base df_result));
          St_download_button data;
          St_dataframe df_result]
         ++ map St_code logs,
         globals ++ ["cols"] ++ match logs with [] => [] | _ => ["log"] end)
    | _, _ =>
        (St_warning :: map St_write logs,
         globals ++ match logs with [] => [] | _ => ["log"] end)
    end.

(** The whole of [if process_btn:], ending with the test of line 234,
    which reads [temp_dir] first. *)
Definition on_rerun (process_btn : bool) (input_folder : string)
    (existe : bool) (w : walk_t) : list st_call * (excepcion + unit) :=
  if process_btn then
    let '(calls, globals) := rama_proceso input_folder existe w in
    (calls, load_name globals "temp_dir")
  else ([], inr tt).

End Handler.

(** ** The write of the workbook

    Lines 139-172 call pandas and openpyxl, which are not part of the
    script and raise on some tables (a cell text with a control character,
    more than 2^20 rows). Nothing in [process_shapefiles] or in the
    handler catches that: the exception ends the run. [make_excel] is the
    workbook when they return. *)

Inductive excepcion_run :=
| Del_script (e : excepcion)
| De_escritura.

Section Escritura.

Context {os_path : OsPath}.

(** Whether the write of lines 139-172 returns on a display copy. *)
Variable to_excel_ok : list Fila -> bool.

(** [process_shapefiles] raises: there are rows, so line 124 does not
    return, and the write of their display copy fails. *)
Definition escritura_falla (w : walk_t) : bool :=
  match df_de w with
  | [] => false
  | df => negb (to_excel_ok (make_df_export df))
  end.

(** The run of [if process_btn:] with the write taken into account: when
    [process_shapefiles] is called and raises, nothing of lines 201-235 is
    run; otherwise the run is [on_rerun]. *)
Definition on_rerun_escritura (process_btn : bool) (input_folder : string)
    (existe : bool) (w : walk_t) : list st_call * (excepcion_run + unit) :=
  if process_btn && Py.truthy input_folder && existe && escritura_falla w
  then ([], inl De_escritura)
  else
    let '(calls, fin) := on_rerun process_btn input_folder existe w in
    (calls, match fin with inl e => inl (Del_script e) | inr u => inr u end).

End Escritura.

(** ** POSIX paths

    [posixpath.join] of two components and [posixpath.dirname], the
    instance of the path functions used in the examples below. *)
Module Posix.

Definition join (a p : string) : string :=
  if String.prefix "/" p then p
  else if negb (Py.truthy a) || Py.endswith a "/" then (a ++ p)%string
  else (a ++ "/" ++ p)%string.

(** On the reversed path: what is left from the last slash on. *)
Fixpoint desde_barra (r : string) : string :=
  match r with
  | EmptyString => EmptyString
  | String c t => if Ascii.eqb c "/" then r else desde_barra t
  end.

Fixpoint solo_barras (s : string) : bool :=
  match s with
  | EmptyString => true
  | String c t => Ascii.eqb c "/" && solo_barras t
  end.

Fixpoint quitar_barras (r : string) : string :=
  match r with
  | String c t => if Ascii.eqb c "/" then quitar_barras t else r
  | EmptyString => EmptyString
  end.

Definition dirname (p : string) : string :=
  let head := desde_barra (Py.rev_string "" p) in
  if Py.truthy head && negb (solo_barras head)
  then Py.rev_string "" (quitar_barras head)
  else Py.rev_string "" head.

End Posix.

#[export] Instance posixpath : OsPath := {
  os_path_join := Posix.join;
  os_path_dirname := Posix.dirname
}.

(** ** Notions the properties are stated with *)

(** For each row of a column, whether its value is the value of the row
    just above. *)
Fixpoint igual_anterior (prev : option string) (col : list string)
  : list bool :=
  match col with
  | [] => []
  | x :: t =>
      match prev with Some p => String.eqb x p | None => false end
      :: igual_anterior (Some x) t
  end.

(** First rows of the groups of a column: the first row and every row
    whose value differs from that of the row just above. *)
Definition inicio_de_grupo (col : list string) : list bool :=
  map negb (igual_anterior None col).

(** The last non-blank value of a column, if any. *)
Definition previo_no_vacio (col : list string) : option string :=
  fold_left (fun p v => if Py.truthy v then Some v else p) col None.

(** A string contains another. *)
Definition contiene (s sub : string) : Prop :=
  exists antes despues : string, s = (antes ++ sub ++ despues)%string.


(** Strict order of two strings. *)
Definition slt (s t : string) : Prop := String.compare s t = Lt.

(** Rows in ascending order of the key. *)
Definition ordenada (df : list Fila) : Prop :=
  Sorted (fun a b => clave_leb a b = true) df.

(** Rows with equal keys keep the order they had. *)
Definition estable (antes despues : list Fila) : Prop :=
  forall k, filter (clave_eqb k) despues = filter (clave_eqb k) antes.

(** A visited file is a shapefile on which the schema read raises. *)
Definition falla (v : string * archivo_t) : bool :=
  es_shp (nombre (snd v))
  && match fiona_open (snd v) with inl _ => true | inr _ => false end.

(** The warning logged for such a file. *)
Definition aviso_de (v : string * archivo_t) : string :=
  aviso_fiona (nombre (snd v))
    (match fiona_open (snd v) with inl e => e | inr _ => "" end).

(** Number of fields of a shapefile whose schema could be read, at least
    one; 0 for any other file. *)
Definition n_filas_de (a : archivo_t) : nat :=
  if es_shp (nombre a) then
    match fiona_open a with
    | inr sch => Nat.max 1 (List.length (props_de sch))
    | inl _ => 0
    end
  else 0.

(** A string has no colon. *)
Definition sin_dos_puntos (s : string) : Prop := Py.split_colon s = None.

(** Whether a column gives no usable text: it cannot be read, is not of
    object or string dtype, or holds only nulls. *)
Definition sin_texto (gdf : option gdf_t) (fname : string) : Prop :=
  match gdf with
  | None => True
  | Some g =>
      match get_column fname (columns g) with
      | None => True
      | Some serie =>
          is_object_dtype serie || is_string_dtype serie = false
          \/ dropna_astype_str (valores serie) = []
      end
  end.

(** A row of the display copy against the row of the table it comes
    from: the four last columns are kept, the two first are kept or
    blanked. *)
Definition fila_mostrada (r e : Fila) : Prop :=
  (carpeta_base e = carpeta_base r \/ carpeta_base e = "")
  /\ (nombre_shapefile e = nombre_shapefile r \/ nombre_shapefile e = "")
  /\ tipo_geometria e = tipo_geometria r
  /\ nombre_campo e = nombre_campo r
  /\ tipo_dato e = tipo_dato r
  /\ longitud e = longitud r.

(** ** Concrete inputs *)

Module Ejemplos.

Definition sch_id : schema_t :=
  mkSchema (Some [("id", FStr "int:10")]) (Some "Point").

Definition shp (n : string) : archivo_t := mkArchivo n (inr sch_id) None.

(** The same shapefile name under two base folders. *)
Definition w_mismo_nombre : walk_t :=
  [("/datos/A", [shp "x.shp"; shp "y.shp"]); ("/datos/B", [shp "x.shp"])].

(** The same directory walked in two orders. *)
Definition w_orden_1 : walk_t :=
  [("/datos/B", [shp "x.shp"]); ("/datos/A", [shp "y.shp"; shp "x.shp"])].

Definition w_orden_2 : walk_t :=
  [("/datos/A", [shp "x.shp"; shp "y.shp"]); ("/datos/B", [shp "x.shp"])].

(** A text column whose longest value has 7 characters. *)
Definition serie_7 : serie_t :=
  mkSerie true false [Val "Bogota"; NA; Val "Popayan"; Val ""].

Definition gdf_7 : gdf_t := mkGdf false (Some "Point") [("ciudad", serie_7)].

Definition sch_name_pop : schema_t :=
  mkSchema (Some [("name", FStr "str:10"); ("pop", FStr "int")])
    (Some "Polygon").

Definition gdf_name_pop : gdf_t :=
  mkGdf false (Some "Polygon")
    [("name", mkSerie true true [Val "Cali"; Val "Santa Marta"]);
     ("pop", mkSerie false false [Val "12"; Val "2400000"])].

Definition a_name_pop : archivo_t :=
  mkArchivo "municipios.shp" (inr sch_name_pop) (Some gdf_name_pop).

Definition a_roto : archivo_t :=
  mkArchivo "roto.SHP" (inl "not recognized as a supported file format")
    None.

Definition a_sin_campos : archivo_t :=
  mkArchivo "vacio.shp" (inr (mkSchema (Some []) (Some "LineString"))) None.

Definition a_rios : archivo_t := mkArchivo "RIOS.SHP" (inr sch_id) None.

Definition a_ciudades : archivo_t :=
  mkArchivo "ciudades.shp"
    (inr (mkSchema (Some [("ciudad", FStr "str:0")]) (Some "Point")))
    (Some gdf_7).

Definition a_leeme : archivo_t :=
  mkArchivo "x.shp.xml" (inl "never opened") None.





(** A shapefile whose name holds the control character 1. *)
Definition a_control : archivo_t :=
  mkArchivo (String "a" (String (ascii_of_nat 1) "b.shp")) (inr sch_id) None.

Definition w_control : walk_t := [("/datos/A", [a_control])].

(** A text openpyxl writes: none of the characters 0-8, 11, 12, 14-31. *)
Fixpoint sin_control (s : string) : bool :=
  match s with
  | EmptyString => true
  | String c t =>
      let n := nat_of_ascii c in
      ((32 <=? n)%nat || (n =? 9)%nat || (n =? 10)%nat || (n =? 13)%nat)
      && sin_control t
  end.

(** A write that fails on a cell with such a character or on more than
    2^20 rows. *)
Definition celdas_validas (df : list Fila) : bool :=
  (Z.of_nat (List.length df) <=? 1048576)%Z
  && forallb
       (fun r =>
          sin_control (carpeta_base r) && sin_control (nombre_shapefile r)
          && sin_control (tipo_geometria r) && sin_control (nombre_campo r)
          && sin_control (tipo_dato r))
       df.

Definition a_notas : archivo_t := mkArchivo "notas.txt" (inl "never opened") None.

(** A directory without any shapefile. *)
Definition w_sin_shp : walk_t :=
  [("/datos", [a_leeme; a_notas]); ("/datos/doc", [a_notas])].

Definition w_mixto_1 : walk_t := [("/datos/A", [a_rios; a_leeme; a_roto])].

Definition w_mixto_2 : walk_t :=
  [("/datos/B", [a_sin_campos; a_name_pop; a_roto])].

Definition filas_xyz : list Fila :=
  [mkFila "/datos/A" "y.shp" "Point" "id" "int" 10;
   mkFila "/datos/A" "x.shp" "Point" "nombre" "str" 40;
   mkFila "/datos/B" "x.shp" "Point" "id" "int" 10;
   mkFila "/datos/A" "x.shp" "Point" "id" "int" 10;
   mkFila "/datos/A" "x.shp" "Point" "area" "float" 0].

Definition filas_ab : list Fila :=
  [mkFila "/datos/B" "x.shp" "Point" "id" "int" 10;
   mkFila "/datos/A" "y.shp" "Point" "id" "int" 10;
   mkFila "/datos/A" "x.shp" "Point" "id" "int" 10;
   mkFila "/datos/A" "x.shp" "Point" "area" "float" 0].

End Ejemplos.

(** ** Facts on lists and on the scan *)

Lemma fold_left_snoc {A B : Type} (f : A -> B) (l : list A) (acc : list B) :
  fold_left (fun fs c => fs ++ [f c]) l acc = acc ++ map f l.
Proof.
  revert acc; induction l as [|c l IH]; intros acc; simpl.
  - now rewrite app_nil_r.
  - rewrite IH, <- app_assoc. reflexivity.
Qed.

Section ScanFacts.

Context {os_path : OsPath}.

(** Each file only appends to the two lists. *)
Lemma process_archivo_app raiz a fs ls :
  process_archivo raiz a (fs, ls)
  = (fs ++ filas_de raiz a, ls ++ avisos_de raiz a).
Proof.
  unfold filas_de, avisos_de, process_archivo.
  destruct (negb (es_shp (nombre a))); simpl.
  - now rewrite !app_nil_r.
  - destruct (fiona_open a) as [e|sch]; simpl.
    + now rewrite app_nil_r.
    + destruct (props_de sch) as [|c props]; simpl.
      * now rewrite app_nil_r.
      * rewrite !fold_left_snoc, app_nil_r. simpl.
        rewrite <- app_assoc. reflexivity.
Qed.

Lemma fold_archivos raiz l fs ls :
  fold_left (fun st a => process_archivo raiz a st) l (fs, ls)
  = (fs ++ flat_map (filas_de raiz) l, ls ++ flat_map (avisos_de raiz) l).
Proof.
  revert fs ls; induction l as [|a l IH]; intros fs ls;
    cbn [fold_left flat_map].
  - now rewrite !app_nil_r.
  - rewrite process_archivo_app, IH, <- !app_assoc. reflexivity.
Qed.

Lemma flat_map_pair {B : Type} (f : string -> archivo_t -> list B) raiz l :
  flat_map (fun v => f (fst v) (snd v)) (map (pair raiz) l)
  = flat_map (f raiz) l.
Proof.
  induction l as [|a l IH]; simpl; [reflexivity | now rewrite IH].
Qed.

Lemma fold_dirs w fs ls :
  fold_left process_dir w (fs, ls)
  = (fs ++ flat_map (fun v => filas_de (fst v) (snd v)) (visitas w),
     ls ++ flat_map (fun v => avisos_de (fst v) (snd v)) (visitas w)).
Proof.
  revert fs ls; induction w as [|[raiz l] w IH]; intros fs ls;
    cbn [fold_left].
  - unfold visitas; simpl. now rewrite !app_nil_r.
  - unfold process_dir at 2; cbn [fst snd].
    rewrite fold_archivos, IH, <- !app_assoc.
    unfold visitas; cbn [flat_map fst snd].
    rewrite !flat_map_app, !flat_map_pair.
    reflexivity.
Qed.

(** The scan is the concatenation of what each visited file adds. *)
Lemma scan_visitas w :
  scan w
  = (flat_map (fun v => filas_de (fst v) (snd v)) (visitas w),
     flat_map (fun v => avisos_de (fst v) (snd v)) (visitas w)).
Proof. unfold scan. now rewrite fold_dirs. Qed.

Lemma visitas_app w1 w2 : visitas (w1 ++ w2) = visitas w1 ++ visitas w2.
Proof. unfold visitas. apply flat_map_app. Qed.

Lemma visitas_cons raiz l w :
  visitas ((raiz, l) :: w) = map (pair raiz) l ++ visitas w.
Proof. reflexivity. Qed.

Lemma visitas_nil : visitas [] = [].
Proof. reflexivity. Qed.

End ScanFacts.

(** ** The order of the sort *)

Lemma scompare_lt_trans s t u : slt s t -> slt t u -> slt s u.
Proof. exact (@StrictOrder_Transitive _ _ String_as_OT.lt_strorder s t u). Qed.

Lemma scompare_lt_irrefl s : ~ slt s s.
Proof. exact (@StrictOrder_Irreflexive _ _ String_as_OT.lt_strorder s). Qed.

Lemma scompare_eq s t : String.compare s t = Eq <-> s = t.
Proof.
  split; [apply String.compare_eq_iff | intros ->].
  destruct (String.compare t t) eqn:E; [reflexivity | |].
  - now apply scompare_lt_irrefl in E.
  - rewrite String.compare_antisym in E.
    destruct (String.compare t t) eqn:E'; try discriminate.
    now apply scompare_lt_irrefl in E'.
Qed.

Lemma scompare_gt s t : String.compare s t = Gt <-> slt t s.
Proof.
  unfold slt. rewrite (String.compare_antisym t s).
  destruct (String.compare s t); simpl; split; congruence.
Qed.

Lemma sleb_trans s t u :
  String.leb s t = true -> String.leb t u = true -> String.leb s u = true.
Proof.
  unfold String.leb. intros H1 H2.
  destruct (String.compare s u) eqn:E; try reflexivity.
  apply scompare_gt in E.
  destruct (String.compare s t) eqn:E1; try discriminate;
    destruct (String.compare t u) eqn:E2; try discriminate.
  - apply scompare_eq in E1, E2; subst. now apply scompare_lt_irrefl in E.
  - apply scompare_eq in E1; subst.
    exfalso; exact (scompare_lt_irrefl _ (scompare_lt_trans _ _ _ E E2)).
  - apply scompare_eq in E2; subst.
    exfalso; exact (scompare_lt_irrefl _ (scompare_lt_trans _ _ _ E E1)).
  - exfalso; apply (scompare_lt_irrefl s).
    eapply scompare_lt_trans; [exact E1|].
    eapply scompare_lt_trans; eassumption.
Qed.

(** The key order is the lexicographic order of the three strings. *)
Lemma cmp_clave_lt a b :
  cmp_clave a b = Lt <->
  slt (carpeta_base a) (carpeta_base b)
  \/ (carpeta_base a = carpeta_base b
      /\ (slt (nombre_shapefile a) (nombre_shapefile b)
          \/ (nombre_shapefile a = nombre_shapefile b
              /\ slt (nombre_campo a) (nombre_campo b)))).
Proof.
  unfold cmp_clave.
  destruct (String.compare (carpeta_base a) (carpeta_base b)) eqn:E1.
  - apply scompare_eq in E1.
    destruct (String.compare (nombre_shapefile a) (nombre_shapefile b)) eqn:E2.
    + apply scompare_eq in E2. split.
      * intros H; right; split; [exact E1 | right; split; [exact E2 | exact H]].
      * intros [H | [_ [H | [_ H]]]]; [rewrite E1 in H | rewrite E2 in H |];
          try exact H; now apply scompare_lt_irrefl in H.
    + split; [intros _; right; split; [exact E1 | left; exact E2] | reflexivity].
    + split; [discriminate |].
      intros [H | [_ [H | [H _]]]].
      * rewrite E1 in H. now apply scompare_lt_irrefl in H.
      * unfold slt in H. congruence.
      * rewrite <- scompare_eq in H. congruence.
  - split; [intros _; left; exact E1 | reflexivity].
  - split; [discriminate |].
    intros [H | [H _]]; [unfold slt in H | rewrite <- scompare_eq in H];
      congruence.
Qed.

Lemma cmp_clave_eq a b : cmp_clave a b = Eq <-> clave a = clave b.
Proof.
  unfold cmp_clave, clave.
  destruct (String.compare (carpeta_base a) (carpeta_base b)) eqn:E1;
    [| split; [discriminate | intros H; injection H as H1 H2 H3;
         apply scompare_eq in H1; congruence] ..].
  apply scompare_eq in E1.
  destruct (String.compare (nombre_shapefile a) (nombre_shapefile b)) eqn:E2;
    [| split; [discriminate | intros H; injection H as H1 H2 H3;
         apply scompare_eq in H2; congruence] ..].
  apply scompare_eq in E2. rewrite scompare_eq. rewrite E1, E2.
  split; [intros ->; reflexivity | intros H; now injection H].
Qed.

Lemma cmp_clave_gt a b : cmp_clave a b = Gt <-> cmp_clave b a = Lt.
Proof.
  unfold cmp_clave.
  rewrite (String.compare_antisym (carpeta_base b)),
    (String.compare_antisym (nombre_shapefile b)),
    (String.compare_antisym (nombre_campo b)).
  destruct (String.compare (carpeta_base a) (carpeta_base b)); simpl;
    try (split; congruence).
  destruct (String.compare (nombre_shapefile a) (nombre_shapefile b)); simpl;
    try (split; congruence).
  destruct (String.compare (nombre_campo a) (nombre_campo b)); simpl;
    split; congruence.
Qed.

Lemma cmp_clave_lt_trans a b c :
  cmp_clave a b = Lt -> cmp_clave b c = Lt -> cmp_clave a c = Lt.
Proof.
  rewrite !cmp_clave_lt.
  intros [H1 | [E1 [H1 | [F1 H1]]]] [H2 | [E2 [H2 | [F2 H2]]]].
  - left; eapply scompare_lt_trans; eassumption.
  - left; now rewrite <- E2.
  - left; now rewrite <- E2.
  - left; now rewrite E1.
  - right; split; [congruence | left; eapply scompare_lt_trans; eassumption].
  - right; split; [congruence | left; now rewrite <- F2].
  - left; now rewrite E1.
  - right; split; [congruence | left; now rewrite F1].
  - right; split; [congruence | right; split; [congruence |]].
    eapply scompare_lt_trans; eassumption.
Qed.

Lemma clave_leb_iff a b :
  clave_leb a b = true <-> cmp_clave a b = Lt \/ clave a = clave b.
Proof.
  unfold clave_leb. rewrite <- cmp_clave_eq.
  destruct (cmp_clave a b); split; try tauto; try discriminate.
  intros [H | H]; discriminate.
Qed.

Lemma cmp_clave_ext a a' b b' :
  clave a = clave a' -> clave b = clave b' -> cmp_clave a b = cmp_clave a' b'.
Proof.
  unfold clave, cmp_clave. intros H1 H2.
  injection H1 as -> -> ->. injection H2 as -> -> ->. reflexivity.
Qed.

Lemma clave_leb_trans a b c :
  clave_leb a b = true -> clave_leb b c = true -> clave_leb a c = true.
Proof.
  rewrite !clave_leb_iff. intros [H1 | H1] [H2 | H2].
  - left; eapply cmp_clave_lt_trans; eassumption.
  - left. now rewrite (cmp_clave_ext a a c b eq_refl (eq_sym H2)).
  - left. now rewrite (cmp_clave_ext a b c c H1 eq_refl).
  - right; congruence.
Qed.

Lemma clave_leb_total a b : clave_leb a b = true \/ clave_leb b a = true.
Proof.
  unfold clave_leb. destruct (cmp_clave a b) eqn:E; auto.
  apply cmp_clave_gt in E. rewrite E. now right.
Qed.

Lemma clave_leb_antisym a b :
  clave_leb a b = true -> clave_leb b a = true -> clave a = clave b.
Proof.
  rewrite !clave_leb_iff. intros [H1 | H1] [H2 | H2]; try congruence.
  apply cmp_clave_gt in H2. congruence.
Qed.

Lemma clave_eqb_iff k r : clave_eqb k r = true <-> k = clave r.
Proof.
  destruct k as [[c n] f]. unfold clave_eqb, clave.
  rewrite !andb_true_iff, !String.eqb_eq.
  split; [intros [[-> ->] ->]; reflexivity | intros H; now injection H].
Qed.

(** ** The sort *)

Lemma insertar_perm x l : Permutation (insertar x l) (x :: l).
Proof.
  induction l as [|y t IH]; simpl; [reflexivity |].
  destruct (clave_leb x y); [reflexivity |].
  rewrite IH. apply perm_swap.
Qed.

Lemma sort_values_perm df : Permutation (sort_values df) df.
Proof.
  induction df as [|x t IH]; simpl; [constructor |].
  rewrite insertar_perm. now constructor.
Qed.

Lemma sort_values_In df r : In r (sort_values df) <-> In r df.
Proof.
  split; apply Permutation_in;
    [apply sort_values_perm | symmetry; apply sort_values_perm].
Qed.

Lemma insertar_ordenada x l : ordenada l -> ordenada (insertar x l).
Proof.
  unfold ordenada. induction l as [|y t IH]; intros H; simpl.
  - repeat constructor.
  - destruct (clave_leb x y) eqn:E.
    + constructor; [exact H | now constructor].
    + apply Sorted_inv in H as [Ht Hy].
      constructor; [now apply IH |].
      destruct t as [|z t]; simpl.
      * constructor. destruct (clave_leb_total x y); congruence.
      * destruct (clave_leb x z); constructor.
        -- destruct (clave_leb_total x y); congruence.
        -- now inversion Hy.
Qed.

Lemma sort_values_ordenada df : ordenada (sort_values df).
Proof.
  induction df as [|x t IH]; simpl; [constructor |].
  now apply insertar_ordenada.
Qed.

Lemma insertar_filter k x l :
  filter (clave_eqb k) (insertar x l) = filter (clave_eqb k) (x :: l).
Proof.
  induction l as [|y t IH]; [reflexivity |].
  cbn [insertar]. destruct (clave_leb x y) eqn:E; [reflexivity |].
  cbn [filter] in *. rewrite IH.
  destruct (clave_eqb k x) eqn:Kx, (clave_eqb k y) eqn:Ky; try reflexivity.
  apply clave_eqb_iff in Kx, Ky.
  assert (clave_leb x y = true) by (apply clave_leb_iff; right; congruence).
  congruence.
Qed.

Lemma sort_values_estable df : estable df (sort_values df).
Proof.
  intros k. induction df as [|x t IH]; [reflexivity |].
  cbn [sort_values fold_right]. rewrite insertar_filter.
  cbn [filter]. fold (sort_values t). now rewrite IH.
Qed.

Lemma ordenada_cabeza x l :
  ordenada (x :: l) -> Forall (fun y => clave_leb x y = true) l.
Proof.
  intros H. apply Sorted_StronglySorted in H.
  - now inversion H.
  - intros a b c. apply clave_leb_trans.
Qed.

Lemma ordenada_cola x l : ordenada (x :: l) -> ordenada l.
Proof. intros H. now apply Sorted_inv in H. Qed.

(** Two sorted tables with the same rows, no two of them with the same
    key, are the same table. *)
Lemma ordenada_unica l1 :
  forall l2,
    Permutation l1 l2 -> NoDup (map clave l1) ->
    ordenada l1 -> ordenada l2 -> l1 = l2.
Proof.
  induction l1 as [|a t1 IH]; intros l2 Hp Hn H1 H2.
  - now apply Permutation_nil in Hp.
  - destruct l2 as [|b t2];
      [symmetry in Hp; now apply Permutation_nil in Hp |].
    assert (Hab : a = b).
    { assert (Ha : In a (b :: t2))
        by (eapply Permutation_in; [exact Hp | now left]).
      assert (Hb : In b (a :: t1))
        by (eapply Permutation_in; [symmetry; exact Hp | now left]).
      destruct Ha as [Ha | Ha]; [now symmetry |].
      destruct Hb as [Hb | Hb]; [assumption |].
      pose proof (ordenada_cabeza _ _ H1) as F1.
      pose proof (ordenada_cabeza _ _ H2) as F2.
      rewrite Forall_forall in F1, F2.
      pose proof (clave_leb_antisym _ _ (F1 _ Hb) (F2 _ Ha)) as Hk.
      simpl in Hn. apply NoDup_cons_iff in Hn as [Hn _].
      exfalso; apply Hn. rewrite Hk. now apply in_map. }
    subst b. f_equal.
    apply IH.
    + now apply Permutation_cons_inv in Hp.
    + simpl in Hn. now apply NoDup_cons_iff in Hn.
    + now apply ordenada_cola in H1.
    + now apply ordenada_cola in H2.
Qed.

(** ** What a file adds to the table *)

Lemma split_colon_antes s :
  forall antes despues,
    Py.split_colon s = Some (antes, despues) -> Py.split_colon antes = None.
Proof.
  induction s as [|c s IH]; intros antes despues H; simpl in H;
    [discriminate |].
  destruct (Ascii.eqb c ":") eqn:E.
  - injection H as <- _. reflexivity.
  - destruct (Py.split_colon s) as [[a b]|] eqn:E'; [| discriminate].
    injection H as <- _. simpl. rewrite E, (IH a b eq_refl). reflexivity.
Qed.

Lemma fila_campo_clave carpeta archivo tipo_geom gdf campo :
  clave (fila_campo carpeta archivo tipo_geom gdf campo)
  = (carpeta, archivo, fst campo).
Proof.
  destruct campo as [fname ft]. unfold fila_campo.
  destruct (parse_ftype ft). reflexivity.
Qed.




Section PorArchivo.

Context {os_path : OsPath}.

Lemma filas_de_eq raiz a :
  filas_de raiz a =
  if negb (es_shp (nombre a)) then []
  else match fiona_open a with
       | inl _ => []
       | inr sch =>
           let carpeta := carpeta_de raiz (nombre a) in
           let tipo_geom := tipo_geom_de sch (read_file a) in
           match props_de sch with
           | [] => [fila_sin_atributos carpeta (nombre a) tipo_geom]
           | props =>
               map (fila_campo carpeta (nombre a) tipo_geom (read_file a))
                 props
           end
       end.
Proof.
  unfold filas_de, process_archivo.
  destruct (negb (es_shp (nombre a))); [reflexivity |].
  destruct (fiona_open a) as [e|sch]; [reflexivity |].
  destruct (props_de sch) as [|c props]; [reflexivity |].
  cbn [fst]. now rewrite fold_left_snoc.
Qed.

Lemma avisos_de_eq raiz a :
  avisos_de raiz a =
  if negb (es_shp (nombre a)) then []
  else match fiona_open a with
       | inl e => [aviso_fiona (nombre a) e]
       | inr _ => []
       end.
Proof.
  unfold avisos_de, process_archivo.
  destruct (negb (es_shp (nombre a))); [reflexivity |].
  destruct (fiona_open a) as [e|sch]; [reflexivity |].
  destruct (props_de sch); reflexivity.
Qed.

(** Every row carries the folder and the name of its file, which is a
    shapefile. *)
Lemma filas_de_ruta raiz a r :
  In r (filas_de raiz a) ->
  (carpeta_base r, nombre_shapefile r) = ruta_de (raiz, a)
  /\ es_shp (nombre a) = true.
Proof.
  rewrite filas_de_eq.
  destruct (es_shp (nombre a)) eqn:E; cbn [negb]; [| intros []].
  destruct (fiona_open a) as [e|sch]; [intros [] |].
  cbv zeta. destruct (props_de sch) as [|c props].
  - intros [<- | []]. now split.
  - intros H. apply in_map_iff in H as (campo & <- & _).
    split; [| reflexivity].
    pose proof (fila_campo_clave (carpeta_de raiz (nombre a)) (nombre a)
                  (tipo_geom_de sch (read_file a)) (read_file a) campo) as K.
    unfold clave in K. injection K as K1 K2 _.
    unfold ruta_de. cbn [fst snd]. congruence.
Qed.

Lemma filas_de_NoDup raiz a :
  props_es_dict a -> NoDup (map clave (filas_de raiz a)).
Proof.
  unfold props_es_dict. rewrite filas_de_eq.
  destruct (negb (es_shp (nombre a))); [constructor |].
  destruct (fiona_open a) as [e|sch]; [constructor |].
  cbv zeta. intros H.
  destruct (props_de sch) as [|c props] eqn:E.
  - repeat constructor. intros [].
  - rewrite map_map.
    erewrite map_ext; [| intros campo; apply fila_campo_clave].
    rewrite <- (map_map fst (fun f => (_, _, f))).
    apply Finite.Injective_map_NoDup; [| exact H].
    intros x y Hxy. now injection Hxy.
Qed.

(** No two rows of a scan have the same key, when no file is visited
    twice. *)
Lemma scan_claves_NoDup w :
  NoDup (map ruta_de (visitas w)) ->
  Forall (fun v => props_es_dict (snd v)) (visitas w) ->
  NoDup (map clave (fst (scan w))).
Proof.
  rewrite scan_visitas. cbn [fst].
  induction (visitas w) as [|[raiz a] V IH]; intros Hn Hd; simpl.
  - constructor.
  - rewrite map_app. inversion Hn as [|? ? Hnotin Hn']; subst.
    inversion Hd as [|? ? Hda Hd']; subst.
    apply NoDup_app.
    + now apply filas_de_NoDup.
    + now apply IH.
    + intros k Hk1 Hk2.
      apply in_map_iff in Hk1 as (r1 & <- & Hr1).
      apply in_map_iff in Hk2 as (r2 & Heq & Hr2).
      apply in_flat_map in Hr2 as ([raiz2 a2] & Hv & Hr2).
      cbn [fst snd] in Hr2.
      apply filas_de_ruta in Hr1 as [Hr1 _].
      apply filas_de_ruta in Hr2 as [Hr2 _].
      apply Hnotin. apply in_map_iff. exists (raiz2, a2).
      split; [| exact Hv].
      unfold clave in Heq. injection Heq as K1 K2 _.
      rewrite <- Hr2, <- Hr1. congruence.
Qed.

Lemma df_de_eq w : df_de w = sort_values (fst (scan w)).
Proof.
  unfold df_de, process_shapefiles.
  destruct (scan w) as [[|r filas] logs]; reflexivity.
Qed.

Lemma logs_de_eq w : logs_de w = snd (scan w).
Proof.
  unfold logs_de, process_shapefiles.
  destruct (scan w) as [[|r filas] logs]; reflexivity.
Qed.

Lemma process_shapefiles_scan w1 w2 :
  scan w1 = scan w2 -> process_shapefiles w1 = process_shapefiles w2.
Proof. unfold process_shapefiles. now intros ->. Qed.

(** A scan is the scan of what comes before a file, then what the file
    adds, then the scan of what comes after it. *)
Lemma scan_medio w1 raiz pre a post w2 :
  scan (w1 ++ (raiz, pre ++ a :: post) :: w2)
  = (fst (scan (w1 ++ [(raiz, pre)])) ++ filas_de raiz a
       ++ fst (scan ((raiz, post) :: w2)),
     snd (scan (w1 ++ [(raiz, pre)])) ++ avisos_de raiz a
       ++ snd (scan ((raiz, post) :: w2))).
Proof.
  rewrite !scan_visitas. cbn [fst snd].
  rewrite !visitas_app, !visitas_cons, visitas_nil, map_app.
  cbn [map]. rewrite !flat_map_app. cbn [flat_map fst snd].
  rewrite !app_nil_r, <- !app_assoc. reflexivity.
Qed.

Lemma scan_sin w1 raiz pre post w2 :
  scan (w1 ++ (raiz, pre ++ post) :: w2)
  = (fst (scan (w1 ++ [(raiz, pre)])) ++ fst (scan ((raiz, post) :: w2)),
     snd (scan (w1 ++ [(raiz, pre)])) ++ snd (scan ((raiz, post) :: w2))).
Proof.
  rewrite !scan_visitas. cbn [fst snd].
  rewrite !visitas_app, !visitas_cons, visitas_nil, map_app.
  rewrite !flat_map_app. cbn [flat_map fst snd].
  rewrite !app_nil_r, <- !app_assoc. reflexivity.
Qed.

End PorArchivo.

(** ** The length of a text *)

Lemma code_points_utf8_de c s :
  (c < 1114112)%N ->
  code_points (utf8_de c ++ s) = S (code_points s).
Proof.
  intros Hc. unfold utf8_de.
  pose proof (N.mod_upper_bound c 64 ltac:(discriminate)) as M0.
  pose proof (N.mod_upper_bound (c / 64) 64 ltac:(discriminate)) as M1.
  pose proof (N.mod_upper_bound (c / 4096) 64 ltac:(discriminate)) as M2.
  set (m0 := (c mod 64)%N) in *. set (m1 := ((c / 64) mod 64)%N) in *.
  set (m2 := ((c / 4096) mod 64)%N) in *. clearbody m0 m1 m2.
  destruct (N.ltb_spec c 128) as [H1 | H1];
    [| destruct (N.ltb_spec c 2048) as [H2 | H2];
       [| destruct (N.ltb_spec c 65536) as [H3 | H3]]].
  - cbn [append code_points]. unfold es_continuacion.
    rewrite N_ascii_embedding by lia.
    destruct (N.leb_spec 128 c); [lia | reflexivity].
  - pose proof (N.Div0.div_lt_upper_bound c 64 32 ltac:(lia)) as D.
    set (q := (c / 64)%N) in *. clearbody q.
    cbn [append code_points]. unfold es_continuacion.
    rewrite !N_ascii_embedding by lia.
    destruct (N.leb_spec 128 (192 + q)); [| lia].
    destruct (N.leb_spec (192 + q) 191); [lia |].
    destruct (N.leb_spec 128 (128 + m0)); [| lia].
    destruct (N.leb_spec (128 + m0) 191); [| lia].
    reflexivity.
  - pose proof (N.Div0.div_lt_upper_bound c 4096 16 ltac:(lia)) as D.
    set (q := (c / 4096)%N) in *. clearbody q.
    cbn [append code_points]. unfold es_continuacion.
    rewrite !N_ascii_embedding by lia.
    destruct (N.leb_spec 128 (224 + q)); [| lia].
    destruct (N.leb_spec (224 + q) 191); [lia |].
    destruct (N.leb_spec 128 (128 + m1)); [| lia].
    destruct (N.leb_spec (128 + m1) 191); [| lia].
    destruct (N.leb_spec 128 (128 + m0)); [| lia].
    destruct (N.leb_spec (128 + m0) 191); [| lia].
    reflexivity.
  - pose proof (N.Div0.div_lt_upper_bound c 262144 5 ltac:(lia)) as D.
    set (q := (c / 262144)%N) in *. clearbody q.
    cbn [append code_points]. unfold es_continuacion.
    rewrite !N_ascii_embedding by lia.
    destruct (N.leb_spec 128 (240 + q)); [| lia].
    destruct (N.leb_spec (240 + q) 191); [lia |].
    destruct (N.leb_spec 128 (128 + m2)); [| lia].
    destruct (N.leb_spec (128 + m2) 191); [| lia].
    destruct (N.leb_spec 128 (128 + m1)); [| lia].
    destruct (N.leb_spec (128 + m1) 191); [| lia].
    destruct (N.leb_spec 128 (128 + m0)); [| lia].
    destruct (N.leb_spec (128 + m0) 191); [| lia].
    reflexivity.
Qed.

(** On the UTF-8 bytes of a [str], [len] is the number of its code
    points. *)
Lemma len_utf8 cps :
  Forall (fun c => (c < 1114112)%N) cps ->
  len (utf8 cps) = Z.of_nat (List.length cps).
Proof.
  unfold len. intros H. f_equal.
  induction H as [|c cps Hc _ IH]; [reflexivity |].
  cbn [utf8 List.length]. now rewrite code_points_utf8_de, IH.
Qed.

Lemma len_utf8_ej :
  utf8 [66; 111; 103; 111; 116; 225]%N = "Bogotá"
  /\ len "Bogotá" = 6%Z /\ len "Ñ" = 1%Z.
Proof. repeat split; reflexivity. Qed.

(** ** Properties of the scan *)



(** C9: when the text after the first colon is not an integer literal,
    the parse gives the text before the colon and length 0, without
    error, and the row is the one of the same type declared without any
    length: its length is what the observed-maximum rule gives from 0. *)
Theorem longitud_no_entera_es_cero :
  forall s antes despues,
    Py.split_colon s = Some (antes, despues) ->
    Py.int despues = None ->
    parse_ftype (FStr s) = (antes, 0%Z)
    /\ forall carpeta archivo tipo_geom gdf fname,
         fila_campo carpeta archivo tipo_geom gdf (fname, FStr s)
         = fila_campo carpeta archivo tipo_geom gdf (fname, FStr antes)
         /\ longitud (fila_campo carpeta archivo tipo_geom gdf (fname, FStr s))
            = longitud_real 0 gdf fname.
Proof.
  intros s antes despues Hs Hi.
  assert (Hp : parse_ftype (FStr s) = (antes, 0%Z)).
  { unfold parse_ftype. now rewrite Hs, Hi. }
  assert (Hp' : parse_ftype (FStr antes) = (antes, 0%Z)).
  { unfold parse_ftype. now rewrite (split_colon_antes _ _ _ Hs). }
  split; [exact Hp |].
  intros carpeta archivo tipo_geom gdf fname.
  unfold fila_campo. rewrite Hp, Hp'. split; reflexivity.
Qed.

Lemma longitud_no_entera_es_cero_ej :
  Py.split_colon "float:24.15" = Some ("float", "24.15")
  /\ Py.int "24.15" = None
  /\ parse_ftype (FStr "float:24.15") = ("float", 0%Z)
  /\ fila_campo "/datos" "ciudades.shp" "Point" (Some Ejemplos.gdf_7)
       ("ciudad", FStr "float:24.15")
     = mkFila "/datos" "ciudades.shp" "Point" "ciudad" "float" 7.
Proof.
  split; [reflexivity | split; [reflexivity |]].
  destruct (longitud_no_entera_es_cero "float:24.15" "float" "24.15"
              eq_refl eq_refl) as [Hp Hf].
  split; [exact Hp |].
  destruct (Hf "/datos" "ciudades.shp" "Point" (Some Ejemplos.gdf_7) "ciudad")
    as [-> _].
  reflexivity.
Defined.

(** C7: a shapefile whose schema has no field adds exactly one row, with
    field name "(Sin atributos)", empty data type and length 0, and no
    warning; in any scan that row stands alone between the rows of the
    files before and after it. *)
Theorem sin_campos_una_fila {os_path : OsPath} :
  forall w1 raiz pre a post w2 sch,
    es_shp (nombre a) = true ->
    fiona_open a = inr sch ->
    props_de sch = [] ->
    filas_de raiz a
    = [mkFila (carpeta_de raiz (nombre a)) (nombre a)
         (tipo_geom_de sch (read_file a)) "(Sin atributos)" "" 0]
    /\ avisos_de raiz a = []
    /\ fst (scan (w1 ++ (raiz, pre ++ a :: post) :: w2))
       = fst (scan (w1 ++ [(raiz, pre)]))
         ++ mkFila (carpeta_de raiz (nombre a)) (nombre a)
              (tipo_geom_de sch (read_file a)) "(Sin atributos)" "" 0
         :: fst (scan ((raiz, post) :: w2)).
Proof.
  intros w1 raiz pre a post w2 sch Hs Hf Hp.
  assert (Hfil : filas_de raiz a
                 = [mkFila (carpeta_de raiz (nombre a)) (nombre a)
                      (tipo_geom_de sch (read_file a)) "(Sin atributos)" "" 0]).
  { rewrite filas_de_eq, Hs, Hf. cbn [negb]. cbv zeta. now rewrite Hp. }
  split; [exact Hfil |].
  split; [rewrite avisos_de_eq, Hs, Hf; reflexivity |].
  rewrite scan_medio. cbn [fst]. now rewrite Hfil.
Qed.

Lemma sin_campos_una_fila_ej :
  es_shp (nombre Ejemplos.a_sin_campos) = true
  /\ filas_de (os_path := posixpath) "/datos/B" Ejemplos.a_sin_campos
     = [mkFila "/datos/B" "vacio.shp" "LineString" "(Sin atributos)" "" 0].
Proof.
  split; [reflexivity |].
  exact (proj1 (sin_campos_una_fila (os_path := posixpath)
                  [] "/datos/B" [] Ejemplos.a_sin_campos [] []
                  (mkSchema (Some []) (Some "LineString"))
                  eq_refl eq_refl eq_refl)).
Defined.

(** C5: a shapefile whose schema declares name: str:10 and pop: int adds
    exactly two rows, one per field, in the order of the schema: "name"
    with type "str" and length 10 whatever the data hold, "pop" with type
    "int" and, no length being declared, the length the observed-maximum
    rule gives from 0. Alone in a directory, these two rows are the
    table. *)
Theorem name_str10_pop_int {os_path : OsPath} :
  forall raiz a geom,
    es_shp (nombre a) = true ->
    fiona_open a
    = inr (mkSchema (Some [("name", FStr "str:10"); ("pop", FStr "int")])
             geom) ->
    let carpeta := carpeta_de raiz (nombre a) in
    let tipo_geom :=
      tipo_geom_de
        (mkSchema (Some [("name", FStr "str:10"); ("pop", FStr "int")]) geom)
        (read_file a) in
    let filas :=
      [mkFila carpeta (nombre a) tipo_geom "name" "str" 10;
       mkFila carpeta (nombre a) tipo_geom "pop" "int"
         (longitud_real 0 (read_file a) "pop")] in
    filas_de raiz a = filas
    /\ avisos_de raiz a = []
    /\ df_de [(raiz, [a])] = filas.
Proof.
  intros raiz a geom Hs Hf carpeta tipo_geom filas.
  assert (Hfil : filas_de raiz a = filas).
  { rewrite filas_de_eq, Hs, Hf. cbn [negb props_de properties map].
    cbv zeta. unfold fila_campo. cbn [parse_ftype].
    change (Py.split_colon "str:10") with (Some ("str", "10")).
    change (Py.split_colon "int") with (@None (string * string)).
    change (Py.int "10") with (Some 10%Z). cbn [py_str].
    f_equal. f_equal. unfold longitud_real.
    destruct (read_file a) as [g|]; [| reflexivity].
    destruct (get_column "name" (columns g)) as [serie|]; [| reflexivity].
    destruct (is_object_dtype serie || is_string_dtype serie);
      [| reflexivity].
    destruct (dropna_astype_str (valores serie)); reflexivity. }
  split; [exact Hfil |].
  split; [rewrite avisos_de_eq, Hs, Hf; reflexivity |].
  rewrite df_de_eq, scan_visitas. cbn [fst snd visitas flat_map map app].
  rewrite !app_nil_r, Hfil. subst filas.
  cbn [sort_values fold_right insertar].
  replace (clave_leb _ _) with true; [reflexivity |].
  symmetry. apply clave_leb_iff. left. apply cmp_clave_lt.
  right; split; [reflexivity |]. right; split; reflexivity.
Qed.

Lemma name_str10_pop_int_ej :
  es_shp (nombre Ejemplos.a_name_pop) = true
  /\ df_de (os_path := posixpath) [("/datos", [Ejemplos.a_name_pop])]
     = [mkFila "/datos" "municipios.shp" "Polygon" "name" "str" 10;
        mkFila "/datos" "municipios.shp" "Polygon" "pop" "int" 0].
Proof.
  split; [reflexivity |].
  exact (proj2 (proj2 (name_str10_pop_int (os_path := posixpath)
                         "/datos" Ejemplos.a_name_pop (Some "Polygon")
                         eq_refl eq_refl))).
Defined.

Lemma output_de_eq {os_path : OsPath} w :
  output_de w
  = match df_de w with
    | [] => None
    | _ => Some (make_excel (df_de w))
    end.
Proof.
  unfold output_de, df_de, process_shapefiles.
  destruct (scan w) as [[|r filas] logs]; [reflexivity |].
  cbn [fst snd].
  destruct (sort_values (r :: filas)) eqn:E; [| reflexivity].
  pose proof (sort_values_perm (r :: filas)) as P. rewrite E in P.
  now apply Permutation_nil in P.
Qed.

(** C6: a shapefile on which the schema read raises adds no row and
    exactly one warning, which contains its name; the table and the
    workbook are those of the walk without the file, and the warnings are
    those of the files before it, then this one, then those of the files
    after it. *)
Theorem fallo_fiona_un_aviso_sin_filas {os_path : OsPath} :
  forall w1 raiz pre a post w2 e,
    es_shp (nombre a) = true ->
    fiona_open a = inl e ->
    filas_de raiz a = []
    /\ avisos_de raiz a = [aviso_fiona (nombre a) e]
    /\ contiene (aviso_fiona (nombre a) e) (nombre a)
    /\ df_de (w1 ++ (raiz, pre ++ a :: post) :: w2)
       = df_de (w1 ++ (raiz, pre ++ post) :: w2)
    /\ output_de (w1 ++ (raiz, pre ++ a :: post) :: w2)
       = output_de (w1 ++ (raiz, pre ++ post) :: w2)
    /\ logs_de (w1 ++ (raiz, pre ++ post) :: w2)
       = logs_de (w1 ++ [(raiz, pre)]) ++ logs_de ((raiz, post) :: w2)
    /\ logs_de (w1 ++ (raiz, pre ++ a :: post) :: w2)
       = logs_de (w1 ++ [(raiz, pre)])
         ++ aviso_fiona (nombre a) e :: logs_de ((raiz, post) :: w2).
Proof.
  intros w1 raiz pre a post w2 e Hs Hf.
  assert (Hfil : filas_de raiz a = [])
    by (rewrite filas_de_eq, Hs, Hf; reflexivity).
  assert (Hav : avisos_de raiz a = [aviso_fiona (nombre a) e])
    by (rewrite avisos_de_eq, Hs, Hf; reflexivity).
  assert (Hdf : df_de (w1 ++ (raiz, pre ++ a :: post) :: w2)
                = df_de (w1 ++ (raiz, pre ++ post) :: w2)).
  { rewrite !df_de_eq, scan_medio, scan_sin, Hfil. reflexivity. }
  repeat split.
  - exact Hfil.
  - exact Hav.
  - exists "⚠️ Error fiona en ", (": " ++ e)%string. reflexivity.
  - exact Hdf.
  - rewrite !output_de_eq, Hdf. reflexivity.
  - rewrite !logs_de_eq, scan_sin. reflexivity.
  - rewrite !logs_de_eq, scan_medio, Hav. reflexivity.
Qed.

Lemma fallo_fiona_un_aviso_sin_filas_ej :
  es_shp (nombre Ejemplos.a_roto) = true
  /\ df_de (os_path := posixpath)
       ([("/datos/A", [Ejemplos.shp "x.shp"])]
        ++ ("/datos/B", [Ejemplos.shp "y.shp"]
                        ++ Ejemplos.a_roto :: [Ejemplos.a_sin_campos]) :: [])
     = df_de (os_path := posixpath)
         ([("/datos/A", [Ejemplos.shp "x.shp"])]
          ++ ("/datos/B", [Ejemplos.shp "y.shp"]
                          ++ [Ejemplos.a_sin_campos]) :: [])
  /\ logs_de (os_path := posixpath)
       ([("/datos/A", [Ejemplos.shp "x.shp"])]
        ++ ("/datos/B", [Ejemplos.shp "y.shp"]
                        ++ Ejemplos.a_roto :: [Ejemplos.a_sin_campos]) :: [])
     = [aviso_fiona "roto.SHP" "not recognized as a supported file format"].
Proof.
  split; [reflexivity |].
  destruct (fallo_fiona_un_aviso_sin_filas (os_path := posixpath)
              [("/datos/A", [Ejemplos.shp "x.shp"])] "/datos/B"
              [Ejemplos.shp "y.shp"] Ejemplos.a_roto [Ejemplos.a_sin_campos]
              [] "not recognized as a supported file format"
              eq_refl eq_refl) as (_ & _ & _ & Hdf & _ & _ & Hl).
  split; [exact Hdf |].
  rewrite Hl. reflexivity.
Defined.

(** C10: every row of the table carries a file name that ends in ".shp"
    once lowered, and a file whose name does not end so adds no row and
    no warning: the results are those of the walk without it. *)
Theorem solo_archivos_shp {os_path : OsPath} :
  forall w,
    (forall r, In r (df_de w) -> es_shp (nombre_shapefile r) = true)
    /\ (forall w1 raiz pre a post w2,
          w = w1 ++ (raiz, pre ++ a :: post) :: w2 ->
          es_shp (nombre a) = false ->
          filas_de raiz a = [] /\ avisos_de raiz a = []
          /\ process_shapefiles w
             = process_shapefiles (w1 ++ (raiz, pre ++ post) :: w2)).
Proof.
  intros w. split.
  - intros r Hr. rewrite df_de_eq, sort_values_In, scan_visitas in Hr.
    cbn [fst] in Hr. apply in_flat_map in Hr as ([raiz a] & _ & Hr).
    cbn [fst snd] in Hr. apply filas_de_ruta in Hr as [Hr Hs].
    unfold ruta_de in Hr. cbn [fst snd] in Hr. injection Hr as _ ->.
    exact Hs.
  - intros w1 raiz pre a post w2 -> Hs.
    assert (Hfil : filas_de raiz a = [])
      by (rewrite filas_de_eq, Hs; reflexivity).
    assert (Hav : avisos_de raiz a = [])
      by (rewrite avisos_de_eq, Hs; reflexivity).
    repeat split; [exact Hfil | exact Hav |].
    apply process_shapefiles_scan.
    rewrite scan_medio, scan_sin, Hfil, Hav. reflexivity.
Qed.

Lemma solo_archivos_shp_ej :
  In (mkFila "/datos/A" "RIOS.SHP" "Point" "id" "int" 10)
    (df_de (os_path := posixpath)
       ([] ++ ("/datos/A", [Ejemplos.a_rios]
                           ++ Ejemplos.a_leeme :: [Ejemplos.a_roto]) :: []))
  /\ es_shp "RIOS.SHP" = true
  /\ es_shp (nombre Ejemplos.a_leeme) = false
  /\ process_shapefiles (os_path := posixpath)
       ([] ++ ("/datos/A", [Ejemplos.a_rios]
                           ++ Ejemplos.a_leeme :: [Ejemplos.a_roto]) :: [])
     = process_shapefiles (os_path := posixpath)
         ([] ++ ("/datos/A", [Ejemplos.a_rios] ++ [Ejemplos.a_roto]) :: []).
Proof.
  destruct (solo_archivos_shp (os_path := posixpath)
              ([] ++ ("/datos/A", [Ejemplos.a_rios]
                        ++ Ejemplos.a_leeme :: [Ejemplos.a_roto]) :: []))
    as [H1 H2].
  assert (Hin : In (mkFila "/datos/A" "RIOS.SHP" "Point" "id" "int" 10)
                  (df_de (os_path := posixpath)
                     ([] ++ ("/datos/A", [Ejemplos.a_rios]
                               ++ Ejemplos.a_leeme :: [Ejemplos.a_roto])
                            :: [])))
    by (left; reflexivity).
  split; [exact Hin |].
  split; [exact (H1 _ Hin) |].
  split; [reflexivity |].
  exact (proj2 (proj2 (H2 [] "/datos/A" [Ejemplos.a_rios] Ejemplos.a_leeme
                         [Ejemplos.a_roto] [] eq_refl eq_refl))).
Defined.

(** C3: the table is in ascending order of the key (base folder,
    shapefile name, field name), rows with equal keys in the order the
    scan produced them; and two walks that visit the same files in
    different orders, no file twice, give the same table and the same
    workbook. *)
Theorem tabla_ordenada_estable_sin_importar_recorrido {os_path : OsPath} :
  forall w1 w2,
    Permutation (visitas w1) (visitas w2) ->
    NoDup (map ruta_de (visitas w1)) ->
    Forall (fun v => props_es_dict (snd v)) (visitas w1) ->
    ordenada (df_de w1)
    /\ estable (fst (scan w1)) (df_de w1)
    /\ Permutation (df_de w1) (fst (scan w1))
    /\ df_de w1 = df_de w2
    /\ output_de w1 = output_de w2.
Proof.
  intros w1 w2 Hp Hn Hd.
  assert (Hdf : df_de w1 = df_de w2).
  { rewrite !df_de_eq.
    assert (Hpf : Permutation (fst (scan w1)) (fst (scan w2))).
    { rewrite !scan_visitas. cbn [fst]. now apply Permutation_flat_map. }
    apply ordenada_unica.
    - rewrite !sort_values_perm. exact Hpf.
    - eapply Permutation_NoDup;
        [apply Permutation_map; symmetry; apply sort_values_perm |].
      now apply scan_claves_NoDup.
    - apply sort_values_ordenada.
    - apply sort_values_ordenada. }
  repeat split.
  - rewrite df_de_eq. apply sort_values_ordenada.
  - rewrite df_de_eq. apply sort_values_estable.
  - rewrite df_de_eq. apply sort_values_perm.
  - exact Hdf.
  - rewrite !output_de_eq, Hdf. reflexivity.
Qed.

Lemma tabla_ordenada_estable_sin_importar_recorrido_ej :
  Permutation (visitas Ejemplos.w_orden_1) (visitas Ejemplos.w_orden_2)
  /\ NoDup (map (ruta_de (os_path := posixpath)) (visitas Ejemplos.w_orden_1))
  /\ Forall (fun v => props_es_dict (snd v)) (visitas Ejemplos.w_orden_1)
  /\ df_de (os_path := posixpath) Ejemplos.w_orden_1
     = df_de (os_path := posixpath) Ejemplos.w_orden_2.
Proof.
  assert (Hp : Permutation (visitas Ejemplos.w_orden_1)
                 (visitas Ejemplos.w_orden_2)).
  { cbn. eapply perm_trans; [apply perm_swap |].
    eapply perm_trans; [apply perm_skip, perm_swap |].
    apply perm_swap. }
  assert (Hn : NoDup (map (ruta_de (os_path := posixpath))
                        (visitas Ejemplos.w_orden_1))).
  { vm_compute. repeat constructor; simpl; intuition discriminate. }
  assert (Hd : Forall (fun v => props_es_dict (snd v))
                 (visitas Ejemplos.w_orden_1)).
  { repeat constructor; unfold props_es_dict; simpl;
      repeat constructor; simpl; tauto. }
  split; [exact Hp | split; [exact Hn | split; [exact Hd |]]].
  exact (proj1 (proj2 (proj2 (proj2
           (tabla_ordenada_estable_sin_importar_recorrido
              (os_path := posixpath) _ _ Hp Hn Hd))))).
Defined.

(** ** The handler *)

(** C2: whenever the button is pressed, and so for every valid, existing
    input path, the run ends with the exception [NameError] on
    [temp_dir], raised by the test of line 234 after the report or the
    warning has been shown. *)
Theorem on_rerun_raises_NameError {os_path : OsPath} :
  forall input_folder existe w,
    snd (on_rerun true input_folder existe w) = inl (NameError "temp_dir").
Proof.
  intros input_folder existe w. unfold on_rerun, rama_proceso.
  destruct (negb (Py.truthy input_folder) || negb existe); [reflexivity |].
  destruct (process_shapefiles w) as [[[data|] [|r df]] [|l logs]];
    reflexivity.
Qed.

(** ** The display copy and the highlighted rows *)

Lemma duplicated_desde_length vistos col :
  List.length (duplicated_desde vistos col) = List.length col.
Proof.
  revert vistos; induction col as [|x t IH]; intros vistos; simpl;
    [reflexivity | now rewrite IH].
Qed.

Lemma mask_length col cond other :
  List.length cond = List.length col ->
  List.length (mask col cond other) = List.length col.
Proof.
  revert cond; induction col as [|x t IH]; intros [|c ct] H; simpl in *;
    try reflexivity; try discriminate.
  f_equal. apply IH. now injection H.
Qed.

Lemma set_carpeta_base_cols df :
  forall col,
    List.length col = List.length df ->
    map carpeta_base (set_carpeta_base df col) = col
    /\ map nombre_shapefile (set_carpeta_base df col)
       = map nombre_shapefile df.
Proof.
  induction df as [|r t IH]; intros [|c ct] H; simpl in *;
    try discriminate; [now split |].
  destruct (IH ct) as [H1 H2]; [now injection H |].
  now rewrite H1, H2.
Qed.

Lemma set_nombre_shapefile_cols df :
  forall col,
    List.length col = List.length df ->
    map nombre_shapefile (set_nombre_shapefile df col) = col
    /\ map carpeta_base (set_nombre_shapefile df col) = map carpeta_base df.
Proof.
  induction df as [|r t IH]; intros [|c ct] H; simpl in *;
    try discriminate; [now split |].
  destruct (IH ct) as [H1 H2]; [now injection H |].
  now rewrite H1, H2.
Qed.

(** The two columns of the display copy, from those of the table. *)
Lemma make_df_export_cols df :
  map carpeta_base (make_df_export df)
  = mask (map carpeta_base df) (duplicated (map carpeta_base df)) ""
  /\ map nombre_shapefile (make_df_export df)
     = mask (map nombre_shapefile df) (duplicated (map nombre_shapefile df)) "".
Proof.
  unfold make_df_export.
  set (c1 := mask (map carpeta_base df) (duplicated (map carpeta_base df)) "").
  assert (L1 : List.length c1 = List.length df).
  { unfold c1, duplicated.
    rewrite mask_length; rewrite ?duplicated_desde_length;
      now rewrite ?length_map. }
  destruct (set_carpeta_base_cols df c1 L1) as [A1 A2].
  rewrite A2.
  set (c2 := mask (map nombre_shapefile df)
               (duplicated (map nombre_shapefile df)) "").
  assert (L2 : List.length c2 = List.length (set_carpeta_base df c1)).
  { unfold c2, duplicated.
    rewrite mask_length; rewrite ?duplicated_desde_length;
      rewrite ?length_map; [| reflexivity].
    rewrite <- (length_map carpeta_base (set_carpeta_base df c1)), A1.
    now symmetry. }
  destruct (set_nombre_shapefile_cols _ c2 L2) as [B1 B2].
  now rewrite B1, B2, A1.
Qed.

(** The loop keeps in [prev_folder] the last non-blank value it met. *)
Lemma resaltar_paso prev x t :
  resaltar prev (x :: t)
  = (Py.truthy x && distinto x prev)
    :: resaltar (if Py.truthy x then Some x else prev) t.
Proof.
  cbn [resaltar]. destruct (Py.truthy x) eqn:T; cbn [andb]; [| reflexivity].
  destruct prev as [p|]; cbn [distinto]; [| reflexivity].
  destruct (String.eqb_spec x p) as [-> | N]; reflexivity.
Qed.

Lemma resaltar_nth pre :
  forall prev v post,
    nth (List.length pre) (resaltar prev (pre ++ v :: post)) false
    = Py.truthy v
      && distinto v
           (fold_left (fun p x => if Py.truthy x then Some x else p) pre prev).
Proof.
  induction pre as [|x pre IH]; intros prev v post.
  - cbn [app List.length fold_left]. rewrite resaltar_paso. reflexivity.
  - cbn [app List.length fold_left]. rewrite resaltar_paso. cbn [nth].
    apply IH.
Qed.

(** On a column without blanks, the rows highlighted are those the
    display copy leaves unblanked. *)
Lemma resaltar_mask col :
  forall vistos prev,
    Forall (fun x => x <> "") col ->
    match prev with Some p => In p vistos | None => True end ->
    resaltar prev (mask col (duplicated_desde vistos col) "")
    = map negb (duplicated_desde vistos col).
Proof.
  induction col as [|x t IH]; intros vistos prev Hne Hp; [reflexivity |].
  inversion Hne as [|? ? Hx Ht]; subst.
  cbn [duplicated_desde mask map]. rewrite resaltar_paso.
  destruct (existsb (String.eqb x) vistos) eqn:E.
  - cbn [Py.truthy andb negb]. f_equal. apply IH; [exact Ht |].
    destruct prev; [now right | exact I].
  - assert (T : Py.truthy x = true) by (destruct x; [congruence | reflexivity]).
    rewrite T. cbn [andb negb]. f_equal.
    + destruct prev as [p|]; [| reflexivity]. cbn [distinto].
      destruct (String.eqb_spec x p) as [-> | N]; [| reflexivity].
      assert (existsb (String.eqb p) vistos = true); [| congruence].
      apply existsb_exists. exists p. split; [exact Hp | apply String.eqb_refl].
    + apply IH; [exact Ht | now left].
Qed.

(** In a sorted column, a value occurred earlier exactly when it is the
    value of the row just above. *)
Lemma duplicated_columna_ordenada col :
  forall vistos prev,
    StronglySorted (fun a b => String.leb a b = true) col ->
    match prev with
    | None => vistos = []
    | Some p =>
        In p vistos
        /\ Forall (fun v => String.leb v p = true) vistos
        /\ Forall (fun x => String.leb p x = true) col
    end ->
    duplicated_desde vistos col = igual_anterior prev col.
Proof.
  induction col as [|x t IH]; intros vistos prev Hs Hi; [reflexivity |].
  inversion Hs as [|? ? Hst Hxt]; subst.
  cbn [duplicated_desde igual_anterior]. f_equal.
  - destruct prev as [p|]; [| now subst].
    destruct Hi as (Hin & Hv & Hc).
    destruct (String.eqb_spec x p) as [-> | N].
    + apply existsb_exists. exists p. split; [exact Hin | apply String.eqb_refl].
    + destruct (existsb (String.eqb x) vistos) eqn:E; [| reflexivity].
      apply existsb_exists in E as (v & Hvin & Hxv).
      apply String.eqb_eq in Hxv. subst v.
      rewrite Forall_forall in Hv. inversion Hc; subst.
      exfalso; apply N. apply String.leb_antisym; auto.
  - apply IH; [exact Hst |].
    split; [now left |]. split; [| exact Hxt].
    constructor.
    + unfold String.leb. now rewrite (proj2 (scompare_eq x x) eq_refl).
    + destruct prev as [p|]; [| subst; constructor].
      destruct Hi as (_ & Hv & Hc). inversion Hc; subst.
      rewrite Forall_forall in *. intros v Hvin.
      eapply sleb_trans; [apply Hv; exact Hvin | assumption].
Qed.

Lemma clave_leb_carpeta a b :
  clave_leb a b = true -> String.leb (carpeta_base a) (carpeta_base b) = true.
Proof.
  intros H. apply clave_leb_iff in H as [H | H]; unfold String.leb.
  - apply cmp_clave_lt in H as [H | [H _]].
    + unfold slt in H. now rewrite H.
    + now rewrite (proj2 (scompare_eq _ _) H).
  - unfold clave in H. injection H as H _ _.
    now rewrite (proj2 (scompare_eq _ _) H).
Qed.

Lemma carpetas_ordenadas df :
  ordenada df ->
  StronglySorted (fun a b => String.leb a b = true) (map carpeta_base df).
Proof.
  intros H. apply Sorted_StronglySorted in H;
    [| intros a b c; apply clave_leb_trans].
  induction H as [|r t Ht IH Hr]; simpl; constructor; [exact IH |].
  rewrite Forall_map. eapply Forall_impl; [| exact Hr].
  intros b. apply clave_leb_carpeta.
Qed.

(** X15: In the sorted table, the folder cell is blanked exactly in the rows
    whose folder is that of the row just above. *)
Lemma carpeta_en_blanco_si_repite df :
  ordenada df ->
  map carpeta_base (make_df_export df)
  = mask (map carpeta_base df) (igual_anterior None (map carpeta_base df)) "".
Proof.
  intros H. rewrite (proj1 (make_df_export_cols df)). unfold duplicated.
  rewrite (duplicated_columna_ordenada _ [] None);
    [reflexivity | now apply carpetas_ordenadas | reflexivity].
Qed.

(** C8: in the workbook of a table whose folder values are not blank, the
    highlighted rows are the first rows of the folder groups, every other
    row being left as it is; and the loop highlights a row exactly when
    its folder cell is not blank and differs from the last non-blank
    folder cell above it. *)
Theorem resaltadas_primera_fila_de_carpeta :
  forall filas,
    Forall (fun r => carpeta_base r <> "") filas ->
    resaltadas (make_excel (sort_values filas))
    = inicio_de_grupo (map carpeta_base (sort_values filas))
    /\ forall pre v post,
         map carpeta_base (hoja (make_excel (sort_values filas)))
         = pre ++ v :: post ->
         nth (List.length pre) (resaltadas (make_excel (sort_values filas)))
           false
         = Py.truthy v && distinto v (previo_no_vacio pre).
Proof.
  intros filas Hne. unfold make_excel. cbn [resaltadas hoja]. split.
  - rewrite (proj1 (make_df_export_cols _)). unfold duplicated.
    rewrite resaltar_mask.
    + unfold inicio_de_grupo. f_equal.
      apply (duplicated_columna_ordenada _ [] None); [| reflexivity].
      apply carpetas_ordenadas, sort_values_ordenada.
    + rewrite Forall_map. rewrite Forall_forall in *.
      intros r Hr. apply Hne. now apply sort_values_In.
    + exact I.
  - intros pre v post ->. apply resaltar_nth.
Qed.

Lemma resaltadas_primera_fila_de_carpeta_ej :
  Forall (fun r => carpeta_base r <> "") Ejemplos.filas_ab
  /\ map carpeta_base (sort_values Ejemplos.filas_ab)
     = ["/datos/A"; "/datos/A"; "/datos/A"; "/datos/B"]
  /\ resaltadas (make_excel (sort_values Ejemplos.filas_ab))
     = [true; false; false; true].
Proof.
  assert (Hne : Forall (fun r => carpeta_base r <> "") Ejemplos.filas_ab)
    by (repeat constructor; discriminate).
  split; [exact Hne | split; [reflexivity |]].
  rewrite (proj1 (resaltadas_primera_fila_de_carpeta _ Hne)). reflexivity.
Defined.

(** C1: with the shapefile x.shp under /datos/A and under /datos/B and
    y.shp between them in the sorted table, the third row is the first of
    the group (/datos/B, x.shp) and its file name differs from the one of
    the row above, yet its file name cell is blank in the sheet. *)
Theorem mismo_nombre_en_dos_carpetas :
  map clave (df_de (os_path := posixpath) Ejemplos.w_mismo_nombre)
  = [("/datos/A", "x.shp", "id"); ("/datos/A", "y.shp", "id");
     ("/datos/B", "x.shp", "id")]
  /\ igual_anterior None
       (map nombre_shapefile
          (df_de (os_path := posixpath) Ejemplos.w_mismo_nombre))
     = [false; false; false]
  /\ option_map (fun e => map nombre_shapefile (hoja e))
       (output_de (os_path := posixpath) Ejemplos.w_mismo_nombre)
     = Some ["x.shp"; "y.shp"; ""]
  /\ option_map (fun e => map carpeta_base (hoja e))
       (output_de (os_path := posixpath) Ejemplos.w_mismo_nombre)
     = Some ["/datos/A"; ""; "/datos/B"].
Proof. repeat split; reflexivity. Qed.


(** * Further properties of the script *)

(** ** The length of a field *)

(** X8: A declared length other than 0 is the length of the row, whatever the
    GeoDataFrame holds. *)
Theorem longitud_declarada_no_se_cambia :
  forall carpeta archivo tipo_geom gdf fname ft,
    snd (parse_ftype ft) <> 0%Z ->
    longitud (fila_campo carpeta archivo tipo_geom gdf (fname, ft))
    = snd (parse_ftype ft).
Proof.
  intros carpeta archivo tipo_geom gdf fname ft Hz.
  unfold fila_campo. destruct (parse_ftype ft) as [tipo l0].
  cbn [snd longitud] in *. unfold longitud_real.
  destruct gdf as [g|]; [| reflexivity].
  destruct (get_column fname (columns g)) as [serie|]; [| reflexivity].
  destruct (is_object_dtype serie || is_string_dtype serie); [| reflexivity].
  destruct (dropna_astype_str (valores serie)); [reflexivity |].
  destruct (Z.eqb_spec l0 0); [contradiction | reflexivity].
Qed.

Lemma longitud_declarada_no_se_cambia_ej :
  snd (parse_ftype (FStr "str:3")) <> 0%Z
  /\ longitud (fila_campo "/datos" "ciudades.shp" "Point"
                 (Some Ejemplos.gdf_7) ("ciudad", FStr "str:3")) = 3%Z.
Proof.
  assert (H : snd (parse_ftype (FStr "str:3")) <> 0%Z)
    by (vm_compute; discriminate).
  split; [exact H |].
  exact (longitud_declarada_no_se_cambia "/datos" "ciudades.shp" "Point"
           (Some Ejemplos.gdf_7) "ciudad" (FStr "str:3") H).
Defined.

(** X9: When the data give no usable text for a field (no GeoDataFrame, no
    such column, a dtype that is neither object nor string, or only
    nulls), the row keeps the parsed length, 0 included. *)
Theorem sin_texto_longitud_del_esquema :
  forall carpeta archivo tipo_geom gdf fname ft,
    sin_texto gdf fname ->
    longitud (fila_campo carpeta archivo tipo_geom gdf (fname, ft))
    = snd (parse_ftype ft).
Proof.
  intros carpeta archivo tipo_geom gdf fname ft H.
  unfold fila_campo. destruct (parse_ftype ft) as [tipo l0].
  cbn [snd longitud]. unfold longitud_real, sin_texto in *.
  destruct gdf as [g|]; [| reflexivity].
  destruct (get_column fname (columns g)) as [serie|]; [| reflexivity].
  destruct H as [-> | ->]; [reflexivity |].
  destruct (is_object_dtype serie || is_string_dtype serie); reflexivity.
Qed.

Lemma sin_texto_longitud_del_esquema_ej :
  sin_texto (Some Ejemplos.gdf_name_pop) "pop"
  /\ longitud (fila_campo "/datos" "municipios.shp" "Polygon"
                 (Some Ejemplos.gdf_name_pop) ("pop", FStr "int")) = 0%Z.
Proof.
  assert (H : sin_texto (Some Ejemplos.gdf_name_pop) "pop")
    by (left; reflexivity).
  split; [exact H |].
  exact (sin_texto_longitud_del_esquema "/datos" "municipios.shp" "Polygon"
           (Some Ejemplos.gdf_name_pop) "pop" (FStr "int") H).
Defined.

Lemma split_colon_partes s :
  forall antes despues,
    Py.split_colon s = Some (antes, despues) ->
    s = (antes ++ ":" ++ despues)%string.
Proof.
  induction s as [|c s IH]; intros antes despues H; simpl in H;
    [discriminate |].
  destruct (Ascii.eqb_spec c ":") as [-> | N].
  - injection H as <- <-. reflexivity.
  - destruct (Py.split_colon s) as [[a b]|] eqn:E; [| discriminate].
    injection H as <- <-. simpl. now rewrite (IH a b eq_refl).
Qed.

Lemma split_colon_none_app a b :
  Py.split_colon a = None ->
  Py.split_colon (a ++ ":" ++ b) = Some (a, b).
Proof.
  induction a as [|c a IH]; intros H; [reflexivity |].
  simpl in *. destruct (Ascii.eqb c ":"); [discriminate |].
  destruct (Py.split_colon a) as [[x y]|]; [discriminate |].
  now rewrite IH.
Qed.

(** X10: The compound type string is cut at its first colon: the data type of
    the row has no colon, and with the text that was read as the length it
    gives back the declared string. A declared string built from a type
    without colon, a colon and a text is cut back into these. *)
Theorem tipo_es_lo_que_precede_al_primer_colon :
  forall s,
    (sin_dos_puntos s -> parse_ftype (FStr s) = (s, 0%Z))
    /\ (forall antes despues,
          Py.split_colon s = Some (antes, despues) ->
          fst (parse_ftype (FStr s)) = antes
          /\ sin_dos_puntos antes
          /\ s = (antes ++ ":" ++ despues)%string
          /\ snd (parse_ftype (FStr s))
             = match Py.int despues with Some n => n | None => 0%Z end)
    /\ (forall tipo texto,
          sin_dos_puntos tipo ->
          s = (tipo ++ ":" ++ texto)%string ->
          Py.split_colon s = Some (tipo, texto)).
Proof.
  intros s. split; [| split].
  - unfold sin_dos_puntos, parse_ftype. now intros ->.
  - intros antes despues H. unfold parse_ftype. rewrite H. cbn [fst snd].
    repeat split.
    + exact (split_colon_antes _ _ _ H).
    + exact (split_colon_partes _ _ _ H).
  - intros tipo texto Ht ->. now apply split_colon_none_app.
Qed.

Lemma tipo_es_lo_que_precede_al_primer_colon_ej :
  Py.split_colon "str:80:x" = Some ("str", "80:x")
  /\ fst (parse_ftype (FStr "str:80:x")) = "str"
  /\ snd (parse_ftype (FStr "str:80:x")) = 0%Z
  /\ sin_dos_puntos "date"
  /\ parse_ftype (FStr "date") = ("date", 0%Z).
Proof.
  destruct (tipo_es_lo_que_precede_al_primer_colon "str:80:x")
    as (_ & H2 & _).
  destruct (H2 "str" "80:x" eq_refl) as (Ha & _ & _ & Hb).
  split; [reflexivity | split; [exact Ha | split; [exact Hb |]]].
  split; [reflexivity |].
  exact (proj1 (tipo_es_lo_que_precede_al_primer_colon "date") eq_refl).
Defined.

(** ** Which files are shapefiles *)

Lemma sappend_assoc (a b c : string) :
  ((a ++ b) ++ c = a ++ (b ++ c))%string.
Proof. induction a as [|x a IH]; simpl; [reflexivity | now rewrite IH]. Qed.

Lemma sappend_nil_r (a : string) : (a ++ "")%string = a.
Proof. induction a as [|x a IH]; simpl; [reflexivity | now rewrite IH]. Qed.

Lemma rev_string_acc s :
  forall acc, Py.rev_string acc s = (Py.rev_string "" s ++ acc)%string.
Proof.
  induction s as [|c s IH]; intros acc; simpl; [reflexivity |].
  rewrite (IH (String c acc)), (IH (String c "")), sappend_assoc.
  reflexivity.
Qed.

Lemma rev_string_app a b :
  Py.rev_string "" (a ++ b)
  = (Py.rev_string "" b ++ Py.rev_string "" a)%string.
Proof.
  induction a as [|c a IH]; simpl.
  - now rewrite sappend_nil_r.
  - rewrite (rev_string_acc (a ++ b) (String c "")), IH,
      (rev_string_acc a (String c "")), sappend_assoc. reflexivity.
Qed.

Lemma rev_string_invol s : Py.rev_string "" (Py.rev_string "" s) = s.
Proof.
  induction s as [|c s IH]; simpl; [reflexivity |].
  rewrite (rev_string_acc s (String c "")), rev_string_app, IH.
  reflexivity.
Qed.

Lemma prefix_iff p :
  forall s, String.prefix p s = true <-> exists t, s = (p ++ t)%string.
Proof.
  induction p as [|c p IH]; intros s.
  - split; [intros _; now exists s | intros _; now destruct s].
  - destruct s as [|d s]; simpl.
    + split; [discriminate | intros [t H]; discriminate].
    + destruct (ascii_dec c d) as [-> | N].
      * rewrite IH. split; intros [t H]; exists t;
          [now rewrite H | now injection H].
      * split; [discriminate | intros [t H]; injection H; congruence].
Qed.

Lemma endswith_iff s suf :
  Py.endswith s suf = true <-> exists base, s = (base ++ suf)%string.
Proof.
  unfold Py.endswith. rewrite prefix_iff. split.
  - intros [t H]. exists (Py.rev_string "" t).
    rewrite <- (rev_string_invol s), H, rev_string_app, rev_string_invol.
    reflexivity.
  - intros [base ->]. exists (Py.rev_string "" base). apply rev_string_app.
Qed.

Lemma lower_app a b : Py.lower (a ++ b) = (Py.lower a ++ Py.lower b)%string.
Proof. induction a as [|c a IH]; simpl; [reflexivity | now rewrite IH]. Qed.

Lemma lower_partes x :
  forall s y,
    Py.lower s = (x ++ y)%string ->
    exists a b, s = (a ++ b)%string /\ Py.lower a = x /\ Py.lower b = y.
Proof.
  induction x as [|c x IH]; intros s y H.
  - exists ""%string, s. now repeat split.
  - destruct s as [|d s]; [discriminate |].
    simpl in H. injection H as Hc Hs.
    destruct (IH s y Hs) as (a & b & -> & Ha & Hb).
    exists (String d a), b. simpl. now rewrite Hc, Ha.
Qed.

(** X11: A file is taken as a shapefile exactly when its name is some text
    followed by four characters that are ".shp" up to the case of the
    letters. *)
Theorem es_shp_es_extension_sin_mayusculas :
  forall archivo,
    es_shp archivo = true
    <-> exists base ext,
          archivo = (base ++ ext)%string /\ Py.lower ext = ".shp".
Proof.
  intros archivo. unfold es_shp. rewrite endswith_iff. split.
  - intros [b H]. destruct (lower_partes _ _ _ H) as (base & ext & E & _ & L).
    now exists base, ext.
  - intros (base & ext & -> & L). exists (Py.lower base).
    now rewrite lower_app, L.
Qed.

Lemma es_shp_es_extension_sin_mayusculas_ej :
  es_shp "Rios.ShP" = true /\ es_shp "rios.shp.bak" = false.
Proof.
  split.
  - apply (proj2 (es_shp_es_extension_sin_mayusculas "Rios.ShP")).
    exists "Rios"%string, ".ShP"%string. split; reflexivity.
  - reflexivity.
Defined.

(** ** The scan as a whole *)

Lemma filter_clave_cabeza a t :
  filter (clave_eqb (clave a)) (a :: t)
  = a :: filter (clave_eqb (clave a)) t.
Proof.
  cbn [filter]. now rewrite (proj2 (clave_eqb_iff (clave a) a) eq_refl).
Qed.

Lemma filter_clave_In k l r :
  In r (filter (clave_eqb k) l) <-> In r l /\ k = clave r.
Proof. now rewrite filter_In, clave_eqb_iff. Qed.

(** Two sorted tables in which the rows of each key are the same, in the
    same order, are equal: a stable sort has one possible result. *)
Lemma ordenada_estable_unica l1 :
  forall l2,
    ordenada l1 -> ordenada l2 ->
    (forall k, filter (clave_eqb k) l1 = filter (clave_eqb k) l2) ->
    l1 = l2.
Proof.
  induction l1 as [|a t1 IH]; intros l2 H1 H2 Hk.
  - destruct l2 as [|b t2]; [reflexivity |].
    specialize (Hk (clave b)). rewrite filter_clave_cabeza in Hk.
    discriminate.
  - destruct l2 as [|b t2].
    + specialize (Hk (clave a)). rewrite filter_clave_cabeza in Hk.
      discriminate.
    + assert (Ha : In a (b :: t2)).
      { apply (filter_clave_In (clave a)). rewrite <- Hk.
        rewrite filter_clave_cabeza. now left. }
      assert (Hb : In b (a :: t1)).
      { apply (filter_clave_In (clave b)). rewrite Hk.
        rewrite filter_clave_cabeza. now left. }
      assert (Hab : clave a = clave b).
      { destruct Ha as [<- | Ha]; [reflexivity |].
        destruct Hb as [<- | Hb]; [reflexivity |].
        pose proof (ordenada_cabeza _ _ H1) as F1.
        pose proof (ordenada_cabeza _ _ H2) as F2.
        rewrite Forall_forall in F1, F2.
        apply clave_leb_antisym; auto. }
      assert (E : a = b).
      { pose proof (Hk (clave a)) as K.
        rewrite filter_clave_cabeza, Hab, filter_clave_cabeza in K.
        now injection K. }
      subst b. f_equal.
      apply IH; [now apply ordenada_cola in H1 | now apply ordenada_cola in H2 |].
      intros k. specialize (Hk k). cbn [filter] in Hk.
      destruct (clave_eqb k a); [now injection Hk | exact Hk].
Qed.

Lemma sort_values_app_sort l1 l2 :
  sort_values (l1 ++ l2) = sort_values (sort_values l1 ++ sort_values l2).
Proof.
  apply ordenada_estable_unica; try apply sort_values_ordenada.
  intros k. rewrite !sort_values_estable, !filter_app, !sort_values_estable.
  reflexivity.
Qed.

(** X6: Walking two directory lists one after the other gives the rows of the
    first followed by those of the second, and likewise the warnings:
    nothing a file adds depends on the files seen before it. The table is
    the two tables merged in order. *)
Theorem scan_de_dos_recorridos {os_path : OsPath} :
  forall w1 w2,
    scan (w1 ++ w2)
    = (fst (scan w1) ++ fst (scan w2), snd (scan w1) ++ snd (scan w2))
    /\ df_de (w1 ++ w2) = sort_values (df_de w1 ++ df_de w2)
    /\ logs_de (w1 ++ w2) = logs_de w1 ++ logs_de w2.
Proof.
  intros w1 w2.
  assert (H : scan (w1 ++ w2)
              = (fst (scan w1) ++ fst (scan w2),
                 snd (scan w1) ++ snd (scan w2))).
  { rewrite !scan_visitas, visitas_app, !flat_map_app. reflexivity. }
  split; [exact H |]. split.
  - rewrite !df_de_eq, H. cbn [fst]. apply sort_values_app_sort.
  - rewrite !logs_de_eq, H. reflexivity.
Qed.

(** A table that is already in order is left as it is by the sort, so
    sorting twice changes nothing. *)
Theorem sort_values_de_tabla_ordenada :
  forall df, ordenada df -> sort_values df = df.
Proof.
  intros df H. apply ordenada_estable_unica;
    [apply sort_values_ordenada | exact H | apply sort_values_estable].
Qed.

Lemma sort_values_de_tabla_ordenada_ej :
  ordenada (sort_values Ejemplos.filas_ab)
  /\ sort_values (sort_values Ejemplos.filas_ab)
     = sort_values Ejemplos.filas_ab.
Proof.
  split; [apply sort_values_ordenada |].
  exact (sort_values_de_tabla_ordenada _
           (sort_values_ordenada Ejemplos.filas_ab)).
Defined.

(** X2: The warnings are, in the order of the visit, one for each shapefile
    on which the schema read raises, and nothing else. *)
Theorem logs_son_los_fallos_en_orden {os_path : OsPath} :
  forall w, logs_de w = map aviso_de (filter falla (visitas w)).
Proof.
  intros w. rewrite logs_de_eq, scan_visitas. cbn [snd].
  assert (H1 : forall raiz a,
             avisos_de raiz a
             = if falla (raiz, a) then [aviso_de (raiz, a)] else []).
  { intros raiz a. rewrite avisos_de_eq. unfold falla, aviso_de.
    cbn [fst snd].
    destruct (es_shp (nombre a)); cbn [negb andb]; [| reflexivity].
    destruct (fiona_open a); reflexivity. }
  induction (visitas w) as [|[raiz a] V IH]; [reflexivity |].
  cbn [flat_map filter fst snd]. rewrite IH, H1.
  destruct (falla (raiz, a)); reflexivity.
Qed.

(** X3: Every row of the table comes from a visited shapefile whose schema
    could be read: it carries the folder, the name and the geometry type
    of that file, and is either the placeholder of a schema without
    fields or the row of one of the fields of the schema. *)
Theorem toda_fila_viene_de_un_campo {os_path : OsPath} :
  forall w r,
    In r (df_de w) ->
    exists raiz a sch,
      In (raiz, a) (visitas w)
      /\ es_shp (nombre a) = true
      /\ fiona_open a = inr sch
      /\ carpeta_base r = carpeta_de raiz (nombre a)
      /\ nombre_shapefile r = nombre a
      /\ tipo_geometria r = tipo_geom_de sch (read_file a)
      /\ ((props_de sch = []
           /\ nombre_campo r = "(Sin atributos)"
           /\ tipo_dato r = "" /\ longitud r = 0%Z)
          \/ exists ft,
               In (nombre_campo r, ft) (props_de sch)
               /\ tipo_dato r = fst (parse_ftype ft)
               /\ longitud r
                  = longitud_real (snd (parse_ftype ft)) (read_file a)
                      (nombre_campo r)).
Proof.
  intros w r Hr. rewrite df_de_eq, sort_values_In, scan_visitas in Hr.
  cbn [fst] in Hr. apply in_flat_map in Hr as ([raiz a] & Hv & Hr).
  cbn [fst snd] in Hr. rewrite filas_de_eq in Hr.
  destruct (es_shp (nombre a)) eqn:Hs; cbn [negb] in Hr; [| destruct Hr].
  destruct (fiona_open a) as [e|sch] eqn:Hf; [destruct Hr |].
  exists raiz, a, sch. cbv zeta in Hr.
  destruct (props_de sch) as [|c props] eqn:Hp.
  - destruct Hr as [<- | []]. repeat split; try assumption. now left.
  - apply in_map_iff in Hr as ([fname ft] & <- & Hin).
    unfold fila_campo. destruct (parse_ftype ft) as [tipo l0] eqn:Ep.
    repeat split; try assumption.
    right. exists ft. cbn [nombre_campo tipo_dato longitud fst snd].
    rewrite Ep. cbn [fst snd]. repeat split. exact Hin.
Qed.

Lemma toda_fila_viene_de_un_campo_ej :
  In (mkFila "/datos/A" "RIOS.SHP" "Point" "id" "int" 10)
    (df_de (os_path := posixpath) Ejemplos.w_mixto_1)
  /\ exists raiz a sch,
       In (raiz, a) (visitas Ejemplos.w_mixto_1)
       /\ es_shp (nombre a) = true
       /\ fiona_open a = inr sch
       /\ "RIOS.SHP" = nombre a.
Proof.
  assert (Hin : In (mkFila "/datos/A" "RIOS.SHP" "Point" "id" "int" 10)
                  (df_de (os_path := posixpath) Ejemplos.w_mixto_1))
    by (left; reflexivity).
  split; [exact Hin |].
  destruct (toda_fila_viene_de_un_campo (os_path := posixpath) _ _ Hin)
    as (raiz & a & sch & H1 & H2 & H3 & _ & H5 & _).
  now exists raiz, a, sch.
Defined.

(** X4: Every field of every visited shapefile whose schema could be read
    has its row in the table, and a shapefile without fields has its
    placeholder. *)
Theorem todo_campo_tiene_su_fila {os_path : OsPath} :
  forall w raiz a sch,
    In (raiz, a) (visitas w) ->
    es_shp (nombre a) = true ->
    fiona_open a = inr sch ->
    (forall campo,
       In campo (props_de sch) ->
       In (fila_campo (carpeta_de raiz (nombre a)) (nombre a)
             (tipo_geom_de sch (read_file a)) (read_file a) campo)
          (df_de w))
    /\ (props_de sch = [] ->
        In (fila_sin_atributos (carpeta_de raiz (nombre a)) (nombre a)
              (tipo_geom_de sch (read_file a)))
           (df_de w)).
Proof.
  intros w raiz a sch Hv Hs Hf.
  assert (Hsub : forall r, In r (filas_de raiz a) -> In r (df_de w)).
  { intros r Hr. rewrite df_de_eq, sort_values_In, scan_visitas. cbn [fst].
    apply in_flat_map. exists (raiz, a). now split. }
  split.
  - intros campo Hc. apply Hsub. rewrite filas_de_eq, Hs, Hf.
    cbn [negb]. cbv zeta.
    destruct (props_de sch) as [|c props]; [destruct Hc |].
    now apply in_map.
  - intros Hp. apply Hsub. rewrite filas_de_eq, Hs, Hf.
    cbn [negb]. cbv zeta. rewrite Hp. now left.
Qed.

Lemma todo_campo_tiene_su_fila_ej :
  In ("/datos/B", Ejemplos.a_name_pop) (visitas Ejemplos.w_mixto_2)
  /\ In (mkFila "/datos/B" "municipios.shp" "Polygon" "pop" "int" 0)
       (df_de (os_path := posixpath) Ejemplos.w_mixto_2)
  /\ In (mkFila "/datos/B" "vacio.shp" "LineString" "(Sin atributos)" "" 0)
       (df_de (os_path := posixpath) Ejemplos.w_mixto_2).
Proof.
  assert (H1 : In ("/datos/B", Ejemplos.a_name_pop)
                 (visitas Ejemplos.w_mixto_2)) by (right; left; reflexivity).
  assert (H2 : In ("/datos/B", Ejemplos.a_sin_campos)
                 (visitas Ejemplos.w_mixto_2)) by (left; reflexivity).
  split; [exact H1 | split].
  - exact (proj1 (todo_campo_tiene_su_fila (os_path := posixpath)
                    Ejemplos.w_mixto_2 "/datos/B" Ejemplos.a_name_pop
                    Ejemplos.sch_name_pop H1 eq_refl eq_refl)
             ("pop", FStr "int") (or_intror (or_introl eq_refl))).
  - exact (proj2 (todo_campo_tiene_su_fila (os_path := posixpath)
                    Ejemplos.w_mixto_2 "/datos/B" Ejemplos.a_sin_campos
                    (mkSchema (Some []) (Some "LineString"))
                    H2 eq_refl eq_refl) eq_refl).
Defined.

(** X5: The table has as many rows as the visited shapefiles whose schema
    could be read have fields, a shapefile without fields counting for
    one; the sort neither adds nor drops a row. *)
Theorem numero_de_filas {os_path : OsPath} :
  forall w,
    List.length (df_de w)
    = list_sum (map (fun v => n_filas_de (snd v)) (visitas w))
    /\ List.length (df_de w) = List.length (fst (scan w)).
Proof.
  intros w.
  assert (L : List.length (df_de w) = List.length (fst (scan w))).
  { rewrite df_de_eq. apply Permutation_length, sort_values_perm. }
  split; [| exact L].
  rewrite L, scan_visitas. cbn [fst]. rewrite length_flat_map.
  f_equal. apply map_ext. intros [raiz a]. cbn [fst snd].
  rewrite filas_de_eq. unfold n_filas_de.
  destruct (es_shp (nombre a)); cbn [negb]; [| reflexivity].
  destruct (fiona_open a) as [e|sch]; [reflexivity |].
  cbv zeta. destruct (props_de sch) as [|c props]; [reflexivity |].
  rewrite length_map. cbn [List.length]. lia.
Qed.

(** X1: In a directory tree without any file whose name ends in ".shp", the
    scan gives no workbook, an empty table and no warning, and the page
    shows the warning of line 202 and nothing to download. *)
Theorem sin_shapefiles_no_hay_reporte {os_path : OsPath} :
  forall w input_folder,
    Forall (fun v => es_shp (nombre (snd v)) = false) (visitas w) ->
    Py.truthy input_folder = true ->
    process_shapefiles w = (None, [], [])
    /\ fst (on_rerun true input_folder true w) = [St_warning].
Proof.
  intros w input_folder Hall Ht.
  assert (Hscan : scan w = ([], [])).
  { rewrite scan_visitas.
    induction (visitas w) as [|[raiz a] V IH]; [reflexivity |].
    inversion Hall as [|? ? Ha HV]; subst. cbn [fst snd] in Ha.
    cbn [flat_map fst snd]. rewrite filas_de_eq, avisos_de_eq, Ha.
    cbn [negb app]. now apply IH. }
  assert (Hp : process_shapefiles w = (None, [], [])).
  { unfold process_shapefiles. now rewrite Hscan. }
  split; [exact Hp |].
  unfold on_rerun, rama_proceso. rewrite Ht, Hp. reflexivity.
Qed.

Lemma sin_shapefiles_no_hay_reporte_ej :
  Forall (fun v => es_shp (nombre (snd v)) = false)
    (visitas Ejemplos.w_sin_shp)
  /\ process_shapefiles (os_path := posixpath) Ejemplos.w_sin_shp
     = (None, [], [])
  /\ fst (on_rerun (os_path := posixpath) true "/datos" true
            Ejemplos.w_sin_shp) = [St_warning].
Proof.
  assert (H : Forall (fun v => es_shp (nombre (snd v)) = false)
                (visitas Ejemplos.w_sin_shp))
    by (repeat constructor).
  split; [exact H |].
  exact (sin_shapefiles_no_hay_reporte (os_path := posixpath)
           Ejemplos.w_sin_shp "/datos" H eq_refl).
Defined.

(** X7: When the GeoDataFrame of a shapefile cannot be read, nothing is
    logged and the rows are those of the schema alone: the geometry type
    of the schema, "Unknown" when it gives none, and for each field the
    type and the length parsed from its declaration. *)
Theorem fallo_geopandas_usa_el_esquema {os_path : OsPath} :
  forall raiz a sch,
    es_shp (nombre a) = true ->
    fiona_open a = inr sch ->
    read_file a = None ->
    avisos_de raiz a = []
    /\ filas_de raiz a
       = let geom :=
           match geometry sch with Some g => g | None => "Unknown" end in
         match props_de sch with
         | [] =>
             [mkFila (carpeta_de raiz (nombre a)) (nombre a) geom
                "(Sin atributos)" "" 0]
         | props =>
             map (fun campo =>
                    mkFila (carpeta_de raiz (nombre a)) (nombre a) geom
                      (fst campo) (fst (parse_ftype (snd campo)))
                      (snd (parse_ftype (snd campo))))
               props
         end.
Proof.
  intros raiz a sch Hs Hf Hg. split.
  - rewrite avisos_de_eq, Hs, Hf. reflexivity.
  - rewrite filas_de_eq, Hs, Hf, Hg. cbn [negb]. cbv zeta.
    unfold tipo_geom_de.
    destruct (props_de sch) as [|c props]; [reflexivity |].
    apply map_ext. intros [fname ft]. unfold fila_campo. cbn [fst snd].
    destruct (parse_ftype ft). reflexivity.
Qed.

Lemma fallo_geopandas_usa_el_esquema_ej :
  es_shp (nombre Ejemplos.a_rios) = true
  /\ read_file Ejemplos.a_rios = None
  /\ filas_de (os_path := posixpath) "/datos/A" Ejemplos.a_rios
     = [mkFila "/datos/A" "RIOS.SHP" "Point" "id" "int" 10].
Proof.
  split; [reflexivity | split; [reflexivity |]].
  exact (proj2 (fallo_geopandas_usa_el_esquema (os_path := posixpath)
                  "/datos/A" Ejemplos.a_rios Ejemplos.sch_id
                  eq_refl eq_refl eq_refl)).
Defined.

(** ** The page *)

Lemma process_shapefiles_partes {os_path : OsPath} w :
  process_shapefiles w = (output_de w, df_de w, logs_de w).
Proof.
  unfold output_de, df_de, logs_de.
  now destruct (process_shapefiles w) as [[o d] l].
Qed.

(** In the run without the write, the download button goes with a path
    that is not empty and exists and a table with at least one row. *)
Lemma on_rerun_descarga {os_path : OsPath} :
  forall input_folder existe w,
    (forall data,
       In (St_download_button data)
         (fst (on_rerun true input_folder existe w)) ->
       Py.truthy input_folder = true /\ existe = true
       /\ df_de w <> [] /\ data = make_excel (df_de w))
    /\ (Py.truthy input_folder = true -> existe = true -> df_de w <> [] ->
        In (St_download_button (make_excel (df_de w)))
          (fst (on_rerun true input_folder existe w))
        /\ In (St_success (List.length (df_de w)))
             (fst (on_rerun true input_folder existe w))
        /\ In (St_dataframe (df_de w))
             (fst (on_rerun true input_folder existe w))).
Proof.
  intros input_folder existe w. unfold on_rerun, rama_proceso.
  rewrite process_shapefiles_partes, output_de_eq.
  destruct (Py.truthy input_folder), existe; cbn [negb orb fst].
  - destruct (df_de w) as [|r df] eqn:E.
    + split.
      * intros data [H | H]; [discriminate |].
        apply in_map_iff in H as (l & H & _). discriminate.
      * intros _ _ H. now contradiction H.
    + cbn [fst]. split.
      * intros data H. cbn [app In] in H.
        destruct H as [H | [H | [H | [H | [H | [H | H]]]]]];
          try discriminate.
        -- injection H as <-. repeat split. discriminate.
        -- apply in_map_iff in H as (l & H & _). discriminate.
      * intros _ _ _. cbn [app In]. repeat split; auto 10.
  - split; [intros data [H | []]; discriminate | intros _ H; discriminate].
  - split; [intros data [H | []]; discriminate | intros H; discriminate].
  - split; [intros data [H | []]; discriminate | intros H; discriminate].
Qed.

(** X12: With the write of the workbook taken into account, the download
    button is shown exactly when the path is not empty, exists, the scan
    gave at least one row and the write returned; what it offers is the
    workbook of the sorted table, and the page then also reports the
    number of rows and shows the table. When the write raises, the run
    ends there with nothing shown. *)
Theorem descarga_solo_con_filas {os_path : OsPath}
    (to_excel_ok : list Fila -> bool) :
  forall input_folder existe w,
    (forall data,
       In (St_download_button data)
         (fst (on_rerun_escritura to_excel_ok true input_folder existe w)) ->
       Py.truthy input_folder = true /\ existe = true
       /\ df_de w <> []
       /\ to_excel_ok (make_df_export (df_de w)) = true
       /\ data = make_excel (df_de w))
    /\ (Py.truthy input_folder = true -> existe = true -> df_de w <> [] ->
        to_excel_ok (make_df_export (df_de w)) = true ->
        In (St_download_button (make_excel (df_de w)))
          (fst (on_rerun_escritura to_excel_ok true input_folder existe w))
        /\ In (St_success (List.length (df_de w)))
             (fst (on_rerun_escritura to_excel_ok true input_folder existe w))
        /\ In (St_dataframe (df_de w))
             (fst (on_rerun_escritura to_excel_ok true input_folder existe
                     w)))
    /\ (Py.truthy input_folder = true -> existe = true -> df_de w <> [] ->
        to_excel_ok (make_df_export (df_de w)) = false ->
        on_rerun_escritura to_excel_ok true input_folder existe w
        = ([], inl De_escritura)).
Proof.
  intros input_folder existe w.
  destruct (on_rerun_descarga input_folder existe w) as [Solo Si].
  assert (Hf : df_de w <> [] ->
               escritura_falla to_excel_ok w
               = negb (to_excel_ok (make_df_export (df_de w)))).
  { unfold escritura_falla. destruct (df_de w); [congruence | reflexivity]. }
  assert (Hrun : escritura_falla to_excel_ok w = false
                 \/ Py.truthy input_folder = false \/ existe = false ->
                 fst (on_rerun_escritura to_excel_ok true input_folder
                        existe w)
                 = fst (on_rerun true input_folder existe w)).
  { intros H. unfold on_rerun_escritura.
    replace (true && Py.truthy input_folder && existe
             && escritura_falla to_excel_ok w) with false.
    - now destruct (on_rerun true input_folder existe w).
    - destruct H as [-> | [-> | ->]];
        now rewrite ?andb_false_r. }
  split; [| split].
  - intros data Hin.
    destruct (Py.truthy input_folder) eqn:Ht;
      [| rewrite Hrun in Hin by auto; now destruct (Solo data Hin)].
    destruct existe eqn:He;
      [| rewrite Hrun in Hin by auto; now destruct (Solo data Hin)].
    destruct (escritura_falla to_excel_ok w) eqn:Ef.
    + unfold on_rerun_escritura in Hin. rewrite Ht, Ef in Hin. destruct Hin.
    + rewrite Hrun in Hin by auto.
      destruct (Solo data Hin) as (_ & _ & Hd & ->).
      repeat split; [exact Hd |].
      specialize (Hf Hd). symmetry in Hf. now apply negb_false_iff in Hf.
  - intros Ht He Hd Ho. rewrite Hrun; [now apply Si |].
    left. rewrite (Hf Hd), Ho. reflexivity.
  - intros Ht He Hd Ho. unfold on_rerun_escritura.
    now rewrite Ht, He, (Hf Hd), Ho.
Qed.

Lemma descarga_solo_con_filas_ej :
  df_de (os_path := posixpath) Ejemplos.w_mixto_1 <> []
  /\ Ejemplos.celdas_validas
       (make_df_export (df_de (os_path := posixpath) Ejemplos.w_mixto_1))
     = true
  /\ In (St_download_button
          (make_excel (df_de (os_path := posixpath) Ejemplos.w_mixto_1)))
       (fst (on_rerun_escritura (os_path := posixpath)
               Ejemplos.celdas_validas true "/datos" true
               Ejemplos.w_mixto_1))
  /\ df_de (os_path := posixpath) Ejemplos.w_control <> []
  /\ Ejemplos.celdas_validas
       (make_df_export (df_de (os_path := posixpath) Ejemplos.w_control))
     = false
  /\ on_rerun_escritura (os_path := posixpath) Ejemplos.celdas_validas
       true "/datos" true Ejemplos.w_control
     = ([], inl De_escritura).
Proof.
  assert (H1 : df_de (os_path := posixpath) Ejemplos.w_mixto_1 <> [])
    by (vm_compute; discriminate).
  assert (H2 : df_de (os_path := posixpath) Ejemplos.w_control <> [])
    by (vm_compute; discriminate).
  destruct (descarga_solo_con_filas (os_path := posixpath)
              Ejemplos.celdas_validas "/datos" true Ejemplos.w_mixto_1)
    as (_ & Si & _).
  destruct (descarga_solo_con_filas (os_path := posixpath)
              Ejemplos.celdas_validas "/datos" true Ejemplos.w_control)
    as (_ & _ & No).
  split; [exact H1 | split; [reflexivity | split]].
  - exact (proj1 (Si eq_refl eq_refl H1 eq_refl)).
  - split; [exact H2 | split; [reflexivity |]].
    exact (No eq_refl eq_refl H2 eq_refl).
Defined.

(** ** The sheet *)

Lemma set_carpeta_base_Forall2 df :
  forall col,
    List.length col = List.length df ->
    Forall2 (fun r e =>
               nombre_shapefile e = nombre_shapefile r
               /\ tipo_geometria e = tipo_geometria r
               /\ nombre_campo e = nombre_campo r
               /\ tipo_dato e = tipo_dato r /\ longitud e = longitud r)
      df (set_carpeta_base df col).
Proof.
  induction df as [|r t IH]; intros [|c ct] H; simpl in *;
    try discriminate; constructor.
  - now repeat split.
  - apply IH. now injection H.
Qed.

Lemma set_nombre_shapefile_Forall2 df :
  forall col,
    List.length col = List.length df ->
    Forall2 (fun r e =>
               carpeta_base e = carpeta_base r
               /\ tipo_geometria e = tipo_geometria r
               /\ nombre_campo e = nombre_campo r
               /\ tipo_dato e = tipo_dato r /\ longitud e = longitud r)
      df (set_nombre_shapefile df col).
Proof.
  induction df as [|r t IH]; intros [|c ct] H; simpl in *;
    try discriminate; constructor.
  - now repeat split.
  - apply IH. now injection H.
Qed.

Lemma mask_Forall2 col :
  forall cond other,
    List.length cond = List.length col ->
    Forall2 (fun x y => y = x \/ y = other) col (mask col cond other).
Proof.
  induction col as [|x t IH]; intros [|c ct] other H; simpl in *;
    try discriminate; constructor.
  - destruct c; auto.
  - apply IH. now injection H.
Qed.

Lemma Forall2_columna (f : Fila -> string) l1 :
  forall l2,
    Forall2 (fun x y => y = x \/ y = "") (map f l1) (map f l2) ->
    Forall2 (fun r e => f e = f r \/ f e = "") l1 l2.
Proof.
  induction l1 as [|r l1 IH]; intros [|e l2] H; simpl in H;
    inversion H; subst; constructor; auto.
Qed.

Lemma Forall2_and {A B : Type} (P Q : A -> B -> Prop) l :
  forall l',
    Forall2 P l l' -> Forall2 Q l l' ->
    Forall2 (fun a b => P a b /\ Q a b) l l'.
Proof.
  induction l as [|a l IH]; intros l' HP HQ;
    inversion HP; subst; inversion HQ; subst; constructor; auto.
Qed.

Lemma Forall2_trans_rel {A : Type} (P Q R : A -> A -> Prop) :
  (forall a b c, P a b -> Q b c -> R a c) ->
  forall l1 l2 l3, Forall2 P l1 l2 -> Forall2 Q l2 l3 -> Forall2 R l1 l3.
Proof.
  intros HPQ l1. induction l1 as [|a l1 IH]; intros l2 l3 H1 H2;
    inversion H1; subst; inversion H2; subst; constructor; eauto.
Qed.

Lemma make_df_export_Forall2 df :
  Forall2 fila_mostrada df (make_df_export df).
Proof.
  { pose proof (make_df_export_cols df) as [C1 C2].
    unfold make_df_export in *.
    set (c1 := mask (map carpeta_base df)
                 (duplicated (map carpeta_base df)) "") in *.
    set (d1 := set_carpeta_base df c1) in *.
    set (c2 := mask (map nombre_shapefile d1)
                 (duplicated (map nombre_shapefile d1)) "") in *.
    assert (L1 : List.length c1 = List.length df).
    { unfold c1, duplicated.
      rewrite mask_length; rewrite ?duplicated_desde_length;
        now rewrite ?length_map. }
    assert (L2 : List.length c2 = List.length d1).
    { unfold c2, duplicated.
      rewrite mask_length; rewrite ?duplicated_desde_length;
        now rewrite ?length_map. }
    pose proof (set_carpeta_base_Forall2 df c1 L1) as A.
    pose proof (set_nombre_shapefile_Forall2 d1 c2 L2) as B.
    fold d1 in A.
    assert (K1 : Forall2 (fun r e => carpeta_base e = carpeta_base r
                                     \/ carpeta_base e = "")
                   df (set_nombre_shapefile d1 c2)).
    { apply (Forall2_columna carpeta_base). rewrite C1.
      apply mask_Forall2. unfold duplicated.
      now rewrite duplicated_desde_length. }
    assert (K2 : Forall2 (fun r e => nombre_shapefile e = nombre_shapefile r
                                     \/ nombre_shapefile e = "")
                   df (set_nombre_shapefile d1 c2)).
    { apply (Forall2_columna nombre_shapefile). rewrite C2.
      apply mask_Forall2. unfold duplicated.
      now rewrite duplicated_desde_length. }
    pose proof (Forall2_trans_rel _ _
                  (fun r e => tipo_geometria e = tipo_geometria r
                              /\ nombre_campo e = nombre_campo r
                              /\ tipo_dato e = tipo_dato r
                              /\ longitud e = longitud r)
                  (fun a b c Hab Hbc =>
                     match Hab, Hbc with
                     | conj _ (conj g1 (conj n1 (conj t1 l1))),
                       conj _ (conj g2 (conj n2 (conj t2 l2))) =>
                         conj (eq_trans g2 g1)
                           (conj (eq_trans n2 n1)
                              (conj (eq_trans t2 t1) (eq_trans l2 l1)))
                     end)
                  _ _ _ A B) as K3.
    pose proof (Forall2_and _ _ _ _ K1 (Forall2_and _ _ _ _ K2 K3)) as K.
    eapply Forall2_impl; [| exact K].
    intros r e (H1 & H2 & H3 & H4 & H5 & H6). unfold fila_mostrada. tauto. }
Qed.

(** X13: The display copy has the rows of the table, one for one and in the
    same order: geometry type, field name, data type and length are
    untouched, and a folder or file name cell holds the value of the
    table or a blank. The sheet has one highlight decision per row. *)
Theorem copia_solo_blanquea_carpeta_y_nombre :
  forall df,
    Forall2 fila_mostrada df (make_df_export df)
    /\ List.length (hoja (make_excel df)) = List.length df
    /\ List.length (resaltadas (make_excel df)) = List.length df.
Proof.
  intros df. pose proof (make_df_export_Forall2 df) as F.
  split; [exact F |].
  unfold make_excel. cbn [hoja resaltadas].
  pose proof (Forall2_length F) as L. split; [now symmetry |].
  assert (R : forall col prev,
             List.length (resaltar prev col) = List.length col).
  { induction col as [|x t IH]; intros prev; [reflexivity |].
    rewrite resaltar_paso. cbn [List.length]. now rewrite IH. }
  rewrite R, length_map. now symmetry.
Qed.

Lemma mask_duplicated_nth pre :
  forall vistos x post,
    (In x pre \/ In x vistos ->
     nth (List.length pre)
       (mask (pre ++ x :: post) (duplicated_desde vistos (pre ++ x :: post))
          "") "" = "")
    /\ (~ In x pre -> ~ In x vistos ->
        nth (List.length pre)
          (mask (pre ++ x :: post)
             (duplicated_desde vistos (pre ++ x :: post)) "") "" = x).
Proof.
  induction pre as [|y pre IH]; intros vistos x post.
  - cbn [app List.length duplicated_desde mask nth]. split.
    + intros [[] | H].
      assert (E : existsb (String.eqb x) vistos = true).
      { apply existsb_exists. exists x. split; [exact H | apply String.eqb_refl]. }
      now rewrite E.
    + intros _ H.
      destruct (existsb (String.eqb x) vistos) eqn:E; [| reflexivity].
      apply existsb_exists in E as (v & Hv & Hxv).
      apply String.eqb_eq in Hxv. subst v. contradiction.
  - cbn [app List.length duplicated_desde mask nth].
    destruct (IH (y :: vistos) x post) as [I1 I2]. split.
    + intros [[-> | H] | H]; apply I1; simpl; auto.
    + intros H1 H2. apply I2; simpl in *; tauto.
Qed.

(** X14: In the display copy, of any table, a folder cell is blank when the
    folder occurs in a row above and holds the folder otherwise, and
    likewise the file name cell with the file names above: the first
    occurrence of each value is the one shown. *)
Theorem celda_en_blanco_si_aparece_arriba :
  forall pre r post,
    let e := nth (List.length pre) (make_df_export (pre ++ r :: post)) r in
    (In (carpeta_base r) (map carpeta_base pre) -> carpeta_base e = "")
    /\ (~ In (carpeta_base r) (map carpeta_base pre) ->
        carpeta_base e = carpeta_base r)
    /\ (In (nombre_shapefile r) (map nombre_shapefile pre) ->
        nombre_shapefile e = "")
    /\ (~ In (nombre_shapefile r) (map nombre_shapefile pre) ->
        nombre_shapefile e = nombre_shapefile r).
Proof.
  intros pre r post e.
  pose proof (make_df_export_cols (pre ++ r :: post)) as [C1 C2].
  pose proof (make_df_export_Forall2 (pre ++ r :: post)) as F.
  apply Forall2_length in F.
  assert (Hlt : List.length pre
                < List.length (make_df_export (pre ++ r :: post))).
  { rewrite <- F, length_app. simpl. lia. }
  assert (E1 : carpeta_base e
               = nth (List.length (map carpeta_base pre))
                   (map carpeta_base (make_df_export (pre ++ r :: post))) "").
  { unfold e. rewrite length_map.
    rewrite (nth_indep _ "" (carpeta_base r)) by (now rewrite length_map).
    now rewrite map_nth. }
  assert (E2 : nombre_shapefile e
               = nth (List.length (map nombre_shapefile pre))
                   (map nombre_shapefile
                      (make_df_export (pre ++ r :: post))) "").
  { unfold e. rewrite length_map.
    rewrite (nth_indep _ "" (nombre_shapefile r)) by (now rewrite length_map).
    now rewrite map_nth. }
  rewrite E1, E2, C1, C2, !map_app. cbn [map].
  unfold duplicated.
  destruct (mask_duplicated_nth (map carpeta_base pre) [] (carpeta_base r)
              (map carpeta_base post)) as [A1 A2].
  destruct (mask_duplicated_nth (map nombre_shapefile pre) []
              (nombre_shapefile r) (map nombre_shapefile post)) as [B1 B2].
  repeat split; intros H; auto.
Qed.

Lemma celda_en_blanco_si_aparece_arriba_ej :
  In "x.shp"
    (map nombre_shapefile
       [mkFila "/datos/A" "x.shp" "Point" "id" "int" 10;
        mkFila "/datos/A" "y.shp" "Point" "id" "int" 10])
  /\ nombre_shapefile
       (nth 2
          (make_df_export
             ([mkFila "/datos/A" "x.shp" "Point" "id" "int" 10;
               mkFila "/datos/A" "y.shp" "Point" "id" "int" 10]
              ++ mkFila "/datos/B" "x.shp" "Point" "id" "int" 10 :: []))
          (mkFila "/datos/B" "x.shp" "Point" "id" "int" 10)) = "".
Proof.
  assert (H : In "x.shp"
                (map nombre_shapefile
                   [mkFila "/datos/A" "x.shp" "Point" "id" "int" 10;
                    mkFila "/datos/A" "y.shp" "Point" "id" "int" 10]))
    by (left; reflexivity).
  split; [exact H |].
  exact (proj1 (proj2 (proj2 (celda_en_blanco_si_aparece_arriba
                  [mkFila "/datos/A" "x.shp" "Point" "id" "int" 10;
                   mkFila "/datos/A" "y.shp" "Point" "id" "int" 10]
                  (mkFila "/datos/B" "x.shp" "Point" "id" "int" 10) []))) H).
Defined.

Lemma carpeta_en_blanco_si_repite_ej :
  ordenada (sort_values Ejemplos.filas_ab)
  /\ map carpeta_base (make_df_export (sort_values Ejemplos.filas_ab))
     = ["/datos/A"; ""; ""; "/datos/B"].
Proof.
  split; [apply sort_values_ordenada |].
  rewrite (carpeta_en_blanco_si_repite _
             (sort_values_ordenada Ejemplos.filas_ab)).
  reflexivity.
Defined.

Lemma mostrados_desde col :
  forall vistos,
    Forall (fun x => x <> "") col ->
    let shown :=
      filter Py.truthy (mask col (duplicated_desde vistos col) "") in
    NoDup shown
    /\ (forall c, In c shown <-> In c col /\ ~ In c vistos)
    /\ List.length shown
       = List.length (filter negb (duplicated_desde vistos col)).
Proof.
  induction col as [|x t IH]; intros vistos Hne.
  - cbn. split; [constructor | split; [| reflexivity]].
    intros c. split; [intros [] | intros [[] _]].
  - inversion Hne as [|? ? Hx Ht]; subst.
    destruct (IH (x :: vistos) Ht) as (N & I & L).
    cbn [duplicated_desde mask].
    destruct (existsb (String.eqb x) vistos) eqn:E.
    + cbn [filter Py.truthy negb].
      apply existsb_exists in E as (v & Hv & Hxv).
      apply String.eqb_eq in Hxv. subst v.
      split; [exact N | split; [| exact L]].
      intros c. rewrite I. split.
      * intros [H1 H2]. split; [now right |].
        intros H3. apply H2. now right.
      * intros [[<- | H1] H2]; [contradiction |].
        split; [exact H1 |].
        intros [<- | H3]; contradiction.
    + assert (T : Py.truthy x = true)
        by (destruct x; [congruence | reflexivity]).
      assert (Hnv : ~ In x vistos).
      { intros H.
        assert (existsb (String.eqb x) vistos = true); [| congruence].
        apply existsb_exists. exists x.
        split; [exact H | apply String.eqb_refl]. }
      cbn [filter negb]. rewrite T. cbn [List.length].
      split; [| split; [| now rewrite L]].
      * constructor; [| exact N].
        intros H. apply I in H as [_ H]. apply H. now left.
      * intros c. cbn [In]. rewrite I. split.
        -- intros [<- | [H1 H2]]; [split; [now left | exact Hnv] |].
           split; [now right |]. intros H3. apply H2. now right.
        -- intros [[<- | H1] H2]; [now left |].
           destruct (string_dec x c) as [<- | Nc]; [now left |].
           right. split; [exact H1 |].
           intros [H3 | H3]; contradiction.
Qed.

Lemma filter_map_negb l :
  List.length (filter (fun b => b) (map negb l))
  = List.length (filter negb l).
Proof.
  induction l as [|b l IH]; [reflexivity |].
  destruct b; simpl; now rewrite IH.
Qed.

(** X16: In the sheet of any table whose folders are not blank, each folder
    of the table is shown in exactly one row; the number of highlighted
    rows is the number of different folders, the figure the page shows
    as scanned directories. *)
Theorem cada_carpeta_se_muestra_una_vez :
  forall df,
    Forall (fun r => carpeta_base r <> "") df ->
    let mostradas :=
      filter Py.truthy (map carpeta_base (hoja (make_excel df))) in
    NoDup mostradas
    /\ (forall c, In c mostradas <-> In c (map carpeta_base df))
    /\ List.length mostradas = nunique (map carpeta_base df)
    /\ List.length (filter (fun b => b) (resaltadas (make_excel df)))
       = nunique (map carpeta_base df).
Proof.
  intros df Hne mostradas. subst mostradas.
  unfold make_excel. cbn [hoja resaltadas].
  rewrite (proj1 (make_df_export_cols df)). unfold duplicated, nunique.
  assert (Hc : Forall (fun x => x <> "") (map carpeta_base df))
    by (now rewrite Forall_map).
  destruct (mostrados_desde (map carpeta_base df) [] Hc) as (N & Hin & L).
  split; [exact N | split; [| split; [exact L |]]].
  - intros c. rewrite Hin. split; [now intros [H _] | intros H].
    split; [exact H | intros []].
  - rewrite resaltar_mask; [| exact Hc | exact I].
    apply filter_map_negb.
Qed.

Lemma cada_carpeta_se_muestra_una_vez_ej :
  Forall (fun r => carpeta_base r <> "") Ejemplos.filas_ab
  /\ List.length
       (filter (fun b => b) (resaltadas (make_excel Ejemplos.filas_ab)))
     = 2
  /\ nunique (map carpeta_base Ejemplos.filas_ab) = 2.
Proof.
  assert (Hne : Forall (fun r => carpeta_base r <> "") Ejemplos.filas_ab)
    by (repeat constructor; discriminate).
  split; [exact Hne |].
  destruct (cada_carpeta_se_muestra_una_vez _ Hne) as (_ & _ & _ & H).
  split; [| reflexivity].
  rewrite H. reflexivity.
Defined.

Lemma clave_leb_nombre a b :
  clave_leb a b = true ->
  carpeta_base a = carpeta_base b ->
  String.leb (nombre_shapefile a) (nombre_shapefile b) = true.
Proof.
  intros H Hc. apply clave_leb_iff in H as [H | H]; unfold String.leb.
  - apply cmp_clave_lt in H as [H | [_ [H | [H _]]]].
    + rewrite Hc in H. now apply scompare_lt_irrefl in H.
    + unfold slt in H. now rewrite H.
    + now rewrite (proj2 (scompare_eq _ _) H).
  - unfold clave in H. injection H as _ H _.
    now rewrite (proj2 (scompare_eq _ _) H).
Qed.

Lemma ordenada_entre l1 :
  forall a l2 b l3 x,
    ordenada (l1 ++ a :: l2 ++ b :: l3) ->
    In x l2 ->
    clave_leb a x = true /\ clave_leb x b = true.
Proof.
  induction l1 as [|y l1 IH]; intros a l2 b l3 x H Hx.
  - cbn [app] in H. split.
    + pose proof (ordenada_cabeza _ _ H) as F. rewrite Forall_forall in F.
      apply F, in_or_app. now left.
    + apply ordenada_cola in H. clear a.
      induction l2 as [|z l2 IH2]; [destruct Hx |].
      destruct Hx as [-> | Hx].
      * pose proof (ordenada_cabeza _ _ H) as F. rewrite Forall_forall in F.
        apply F, in_or_app. right. now left.
      * apply IH2; [now apply ordenada_cola in H | exact Hx].
  - apply (IH a l2 b l3 x); [| exact Hx].
    cbn [app] in H. now apply ordenada_cola in H.
Qed.

(** X17: In the sorted table the rows of one shapefile are next to each
    other: between two rows with the same folder and file name, every row
    has that folder and that file name. *)
Theorem filas_de_un_shapefile_contiguas :
  forall filas l1 a l2 b l3,
    sort_values filas = l1 ++ a :: l2 ++ b :: l3 ->
    carpeta_base a = carpeta_base b ->
    nombre_shapefile a = nombre_shapefile b ->
    Forall (fun x => carpeta_base x = carpeta_base a
                     /\ nombre_shapefile x = nombre_shapefile a) l2.
Proof.
  intros filas l1 a l2 b l3 E Hc Hn.
  pose proof (sort_values_ordenada filas) as Hs. rewrite E in Hs.
  apply Forall_forall. intros x Hx.
  destruct (ordenada_entre _ _ _ _ _ _ Hs Hx) as [Hax Hxb].
  assert (Cx : carpeta_base x = carpeta_base a).
  { apply String.leb_antisym.
    - rewrite Hc. now apply clave_leb_carpeta.
    - now apply clave_leb_carpeta. }
  split; [exact Cx |].
  apply String.leb_antisym.
  - rewrite Hn. apply clave_leb_nombre; [exact Hxb | congruence].
  - apply clave_leb_nombre; [exact Hax | congruence].
Qed.

Lemma filas_de_un_shapefile_contiguas_ej :
  sort_values Ejemplos.filas_xyz
  = [] ++ mkFila "/datos/A" "x.shp" "Point" "area" "float" 0
       :: [mkFila "/datos/A" "x.shp" "Point" "id" "int" 10]
       ++ mkFila "/datos/A" "x.shp" "Point" "nombre" "str" 40
       :: [mkFila "/datos/A" "y.shp" "Point" "id" "int" 10;
           mkFila "/datos/B" "x.shp" "Point" "id" "int" 10]
  /\ Forall (fun x => carpeta_base x = "/datos/A"
                      /\ nombre_shapefile x = "x.shp")
       [mkFila "/datos/A" "x.shp" "Point" "id" "int" 10].
Proof.
  split; [reflexivity |].
  exact (filas_de_un_shapefile_contiguas Ejemplos.filas_xyz []
           (mkFila "/datos/A" "x.shp" "Point" "area" "float" 0)
           [mkFila "/datos/A" "x.shp" "Point" "id" "int" 10]
           (mkFila "/datos/A" "x.shp" "Point" "nombre" "str" 40)
           [mkFila "/datos/A" "y.shp" "Point" "id" "int" 10;
            mkFila "/datos/B" "x.shp" "Point" "id" "int" 10]
           eq_refl eq_refl eq_refl).
Defined.
